(** * Portfolio ledger and withdrawal sustainability engine

    A shallow embedding of the computational core of the repository
    (withdrawal_planner.py, tax_calculator.py, portfolio_manager.py,
    event_detector.py, app/services/portfolio_context.py,
    app/services/currency.py and the ledger endpoints of server.py), with
    the properties its specification states about it.

    Numbers.  Python [float]s are embedded as exact rationals ([Q]): every
    arithmetic operation is the mathematical one, comparisons are the
    decidable order of [Q], and equalities between computed amounts are
    stated up to [==].  Rounding, infinities and NaN are outside this
    model; the one fully concrete scenario of the specification is checked
    a second time on IEEE binary64 numbers in [Module Binary64].  Python
    [int]s are [Z], strings are [string], lists are [list], dictionaries
    with a fixed set of keys are records, and an absent key or [None] is
    [option].  A raised exception is the [Raise] case of [result]. *)

From Stdlib Require Import QArith Qround Qabs Lqa Lia ZArith.
From Stdlib Require Import List String Ascii Bool Permutation Sorted Floats.
Import ListNotations.

Open Scope Q_scope.

(** ** Python primitives used by the sources *)

(** The exceptions the embedded code can raise. *)
Inductive exn : Type :=
| ZeroDivisionError
| IndexError
| KeyError (key : string)
| ValueError (msg : string).

Inductive result (A : Type) : Type :=
| Ok (a : A)
| Raise (e : exn).
Arguments Ok {A} a.
Arguments Raise {A} e.

Definition bind {A B : Type} (r : result A) (k : A -> result B) : result B :=
  match r with
  | Ok a => k a
  | Raise e => Raise e
  end.

Notation "x <- r ;; k" := (bind r (fun x => k))
  (at level 61, r at next level, right associativity).

(** [a < b] and [a <= b] on floats, as booleans. *)
Definition Qltb (a b : Q) : bool := negb (Qle_bool b a).
Definition Qleb (a b : Q) : bool := Qle_bool a b.

(** [max(a, b)]: the first argument unless the second is strictly larger. *)
Definition py_max (a b : Q) : Q := if Qltb a b then b else a.

(** [min(a, b)]: the first argument unless the second is strictly smaller. *)
Definition py_min (a b : Q) : Q := if Qltb b a then b else a.

(** [a / b] on floats. *)
Definition py_div (a b : Q) : result Q :=
  if Qeq_bool b 0 then Raise ZeroDivisionError else Ok (a / b).

(** [l[i]] for an index [i >= 0]. *)
Definition py_index {A : Type} (l : list A) (i : Z) : result A :=
  match nth_error l (Z.to_nat i) with
  | Some a => Ok a
  | None => Raise IndexError
  end.

(** [sorted(l)] on a list of floats: a stable insertion sort. *)
Fixpoint insert_sorted (x : Q) (l : list Q) : list Q :=
  match l with
  | [] => [x]
  | y :: l' => if Qleb x y then x :: y :: l' else y :: insert_sorted x l'
  end.

Fixpoint sorted (l : list Q) : list Q :=
  match l with
  | [] => []
  | x :: l' => insert_sorted x (sorted l')
  end.

(** [sum(l)] on floats: a left fold from [0]. *)
Definition py_sum (l : list Q) : Q := fold_left Qplus l 0.

(** [str.upper] and [str.lower] on ASCII strings. *)
Definition upper_ascii (c : ascii) : ascii :=
  let n := nat_of_ascii c in
  if Nat.leb 97 n && Nat.leb n 122 then ascii_of_nat (n - 32) else c.

Definition lower_ascii (c : ascii) : ascii :=
  let n := nat_of_ascii c in
  if Nat.leb 65 n && Nat.leb n 90 then ascii_of_nat (n + 32) else c.

Fixpoint upper (s : string) : string :=
  match s with
  | EmptyString => EmptyString
  | String c s' => String (upper_ascii c) (upper s')
  end.

Fixpoint lower (s : string) : string :=
  match s with
  | EmptyString => EmptyString
  | String c s' => String (lower_ascii c) (lower s')
  end.

(** [not l] on a list. *)
Definition is_empty {A : Type} (l : list A) : bool :=
  match l with
  | [] => true
  | _ :: _ => false
  end.

(** [d.get(k)] on a dictionary kept as an association list. *)
Fixpoint dict_get {V : Type} (d : list (string * V)) (k : string) : option V :=
  match d with
  | [] => None
  | (k', v) :: d' => if String.eqb k' k then Some v else dict_get d' k
  end.

(** ** withdrawal_planner.py *)

Module WithdrawalPlanner.





(** The module-level generator of Python's [random]: [run_monte_carlo]
    neither seeds it nor receives one, it draws from whatever state the
    process-wide generator is in.  The generator is deterministic, so a
    state is the sequence of standard normal variates it is going to
    produce together with the number already drawn. *)
Record rng : Type := {
  variates : nat -> Q;
  cursor : nat
}.

(** [random.gauss(mu, sigma)]: [mu + z * sigma] for the next variate [z];
    the generator advances. *)
Definition gauss (mu sigma : Q) (g : rng) : Q * rng :=
  (mu + variates g (cursor g) * sigma,
   {| variates := variates g; cursor := S (cursor g) |}).

Record TrialResult : Type := {
  survived : bool;
  final_value : Q
}.

(** The inner loop [for year in range(years)] of one trial; it stops at
    the first year that leaves the portfolio at or below zero. *)
Fixpoint simulate_years (years : nat) (g : rng) (portfolio withdrawal : Q)
  : rng * (Q * bool) :=
  match years with
  | O => (g, (portfolio, true))
  | S years' =>
      let '(annual_return, g') := gauss 0.07 0.15 g in
      let portfolio := portfolio * (1 + annual_return) in
      let portfolio := portfolio - withdrawal in
      let withdrawal := withdrawal * 1.03 in
      if Qleb portfolio 0 then (g', (portfolio, false))
      else simulate_years years' g' portfolio withdrawal
  end.

(** The outer loop [for sim in range(simulations)]. *)
Fixpoint simulate_trials (simulations : nat) (g : rng)
    (starting_portfolio annual_withdrawal : Q) (years : nat)
    (successes : Z) (all_results : list TrialResult)
  : rng * (Z * list TrialResult) :=
  match simulations with
  | O => (g, (successes, all_results))
  | S simulations' =>
      let '(g', (portfolio, surv)) :=
        simulate_years years g starting_portfolio annual_withdrawal in
      let successes := if surv then (successes + 1)%Z else successes in
      simulate_trials simulations' g' starting_portfolio annual_withdrawal
        years successes
        (all_results ++ [{| survived := surv;
                            final_value := py_max 0 portfolio |}])
  end.

Inductive recommendation : Type :=
| excellent_sustainability
| good_sustainability
| moderate_risk
| high_risk.

Inductive confidence : Type :=
| High
| Moderate
| Low.

Record MonteCarlo : Type := {
  simulations : Z;
  success_rate : Q;
  median_final_value : Q;
  worst_case_10th_percentile : Q;
  best_case_90th_percentile : Q;
  mc_recommendation : recommendation;
  confidence_level : confidence
}.

(** The statistics computed after the loops. *)
Definition summarize (sims : Z) (successes : Z)
    (all_results : list TrialResult) : result MonteCarlo :=
  ratio <- py_div (inject_Z successes) (inject_Z sims) ;;
  let rate := ratio * 100 in
  let final_values := sorted (map final_value all_results) in
  let len := Z.of_nat (List.length final_values) in
  median <- py_index final_values (len / 2)%Z ;;
  percentile_10 <- py_index final_values (Qfloor (inject_Z len * 0.1)) ;;
  percentile_90 <- py_index final_values (Qfloor (inject_Z len * 0.9)) ;;
  Ok {| simulations := sims;
        success_rate := rate;
        median_final_value := median;
        worst_case_10th_percentile := percentile_10;
        best_case_90th_percentile := percentile_90;
        mc_recommendation :=
          if Qleb 90 rate then excellent_sustainability
          else if Qleb 75 rate then good_sustainability
          else if Qleb 60 rate then moderate_risk
          else high_risk;
        confidence_level :=
          if Qleb 85 rate then High
          else if Qleb 70 rate then Moderate
          else Low |}.

(** [WithdrawalPlanner.run_monte_carlo]: the state the generator is left
    in, and the returned dictionary or the exception raised. *)
Definition run_monte_carlo (g : rng)
    (starting_portfolio annual_withdrawal : Q) (years sims : Z)
  : rng * result MonteCarlo :=
  let '(g', (successes, all_results)) :=
    simulate_trials (Z.to_nat sims) g starting_portfolio annual_withdrawal
      (Z.to_nat years) 0%Z [] in
  (g', summarize sims successes all_results).



Record ProjectionYear : Type := {
  year : Z;
  portfolio_value : Q;
  withdrawal_amount : Q;
  depleted : bool
}.

(** The loop [for year in range(1, years + 1)] of the projection, from
    year [this_year] on, [remaining] iterations being left; it breaks
    after appending the first depleted year. *)
Fixpoint project_years (remaining : nat) (this_year : Z)
    (portfolio withdrawal expected_return inflation : Q)
  : list ProjectionYear :=
  match remaining with
  | O => []
  | S remaining' =>
      let portfolio := portfolio * (1 + expected_return) in
      let portfolio := portfolio - withdrawal in
      let withdrawal := withdrawal * (1 + inflation) in
      let entry := {| year := this_year;
                      portfolio_value := portfolio;
                      withdrawal_amount := withdrawal;
                      depleted := Qleb portfolio 0 |} in
      if Qleb portfolio 0 then [entry]
      else entry :: project_years remaining' (this_year + 1) portfolio
                      withdrawal expected_return inflation
  end.

Record Projection : Type := {
  starting_value : Q;
  initial_withdrawal : Q;
  years_projected : Z;
  projection_expected_return : Q;
  inflation_rate : Q;
  success : bool;
  depletion_year : option Z;
  projection_final_value : Q;
  projections : list ProjectionYear
}.

(** [WithdrawalPlanner.run_sustainability_projection]. *)
Definition run_sustainability_projection
    (starting_portfolio annual_withdrawal : Q) (years : Z)
    (expected_return inflation : Q) : Projection :=
  let rows :=
    project_years (Z.to_nat years) 1 starting_portfolio annual_withdrawal
      expected_return inflation in
  let depletion := option_map year (find depleted rows) in
  {| starting_value := starting_portfolio;
     initial_withdrawal := annual_withdrawal;
     years_projected := years;
     projection_expected_return := expected_return;
     inflation_rate := inflation;
     success :=
       match depletion with
       | None => true
       | Some y => (years <? y)%Z
       end;
     depletion_year := depletion;
     projection_final_value :=
       match rev rows with
       | last_row :: _ => portfolio_value last_row
       | [] => 0
       end;
     projections := rows |}.

Inductive stress_status : Type :=
| Unsustainable
| Risky
| Sustainable.

(** The texts of [recommended_action], by kind, with the amount they
    quote. *)
Inductive stress_action : Type :=
| reduce_or_pause (reduced_to : Q)
| consider_reducing (reduced_to : Q)
| continue_current_rate.

Record StressScenario : Type := {
  scenario : string;
  crash_percent : Q;
  portfolio_after_crash : Q;
  withdrawal_rate_after_crash : Q;
  scenario_status : stress_status;
  recommended_action : stress_action
}.

(** The scenarios used when [crash_scenarios] is [None]. *)
Definition default_crash_scenarios : list (string * Q) :=
  [("Moderate Correction"%string, -0.20);
   ("Severe Crash"%string, -0.40);
   ("Extreme Crisis"%string, -0.50)].

(** The body of the loop of [stress_test] for one scenario. *)
Definition stress_scenario (portfolio_value annual_withdrawal : Q)
    (entry : string * Q) : StressScenario :=
  let '(scenario_name, crash) := entry in
  let crashed_value := portfolio_value * (1 + crash) in
  let new_withdrawal_rate :=
    if Qltb 0 crashed_value then annual_withdrawal / crashed_value else 999 in
  let '(st, action) :=
    if Qltb 0.06 new_withdrawal_rate
    then (Unsustainable, reduce_or_pause (crashed_value * 0.04))
    else if Qltb 0.05 new_withdrawal_rate
    then (Risky, consider_reducing (crashed_value * 0.04))
    else (Sustainable, continue_current_rate) in
  {| scenario := scenario_name;
     crash_percent := crash * 100;
     portfolio_after_crash := crashed_value;
     withdrawal_rate_after_crash := new_withdrawal_rate * 100;
     scenario_status := st;
     recommended_action := action |}.

Record StressTest : Type := {
  original_portfolio : Q;
  stress_annual_withdrawal : Q;
  scenarios : list StressScenario
}.

(** [WithdrawalPlanner.stress_test]. *)
Definition stress_test (portfolio_value annual_withdrawal : Q)
    (crash_scenarios : option (list (string * Q))) : StressTest :=
  let crash_scenarios :=
    match crash_scenarios with
    | Some l => l
    | None => default_crash_scenarios
    end in
  {| original_portfolio := portfolio_value;
     stress_annual_withdrawal := annual_withdrawal;
     scenarios :=
       map (stress_scenario portfolio_value annual_withdrawal)
           crash_scenarios |}.



End WithdrawalPlanner.

(** ** tax_calculator.py *)

Module TaxCalculator.

(** A naive [datetime], as microseconds since the epoch. *)
Definition datetime : Type := Z.

(** [(later - earlier).days]: a [timedelta] keeps its seconds and
    microseconds non-negative, so [days] is the floor. *)
Definition days_between (later earlier : datetime) : Z :=
  ((later - earlier) / 86400000000)%Z.

(** [KENYA_TAX_RATES['capital_gains']]. *)
Definition KENYA_capital_gains : list (string * Q) :=
  [("resident"%string, 0.05); ("non_resident"%string, 0.05)].

(** [US_TAX_RATES['capital_gains']['threshold_days']]. *)
Definition US_threshold_days : Z := 365.

(** [UK_TAX_RATES['capital_gains']]: [annual_allowance] and [basic_rate]. *)
Definition UK_annual_allowance : Q := 3000.
Definition UK_basic_rate : Q := 0.10.

(** The texts of [recommendation], by kind. *)
Inductive advice : Type :=
| consider_tax_loss_harvesting
| kenya_flat_regardless_of_holding
| us_long_term_rate
| us_hold_more_days (days_to_long_term : Z)
| uk_within_allowance (annual_allowance : Q)
| consult_local_advisor.

(** The dictionary a capital-gains calculation returns; the keys only
    some branches set are optional.  The free-text [notes] is left out. *)
Record TaxResult : Type := {
  gross_gain : Q;
  tax_owed : Q;
  net_gain : Q;
  tax_rate : Q;
  holding_period_days : Z;
  jurisdiction : string;
  tax_loss : option Q;
  taxable_gain : option Q;
  annual_allowance_used : option Q;
  tax_type : option string;
  taxpayer_status : option string;
  recommendation : option advice
}.

Record TaxCalculator : Type := {
  default_jurisdiction : string
}.

(** [TaxCalculator.__init__]. *)
Definition init (default : string) : TaxCalculator :=
  {| default_jurisdiction := lower default |}.

(** [TaxCalculator._calculate_kenya_cgt]. *)
Definition _calculate_kenya_cgt (gain : Q) (holding_days : Z)
    (status : string) : result TaxResult :=
  match dict_get KENYA_capital_gains status with
  | None => Raise (KeyError status)
  | Some rate =>
      let owed := gain * rate in
      Ok {| gross_gain := gain;
            tax_owed := owed;
            net_gain := gain - owed;
            tax_rate := rate;
            holding_period_days := holding_days;
            jurisdiction := "kenya";
            tax_loss := None;
            taxable_gain := None;
            annual_allowance_used := None;
            tax_type := None;
            taxpayer_status := Some status;
            recommendation :=
              if (holding_days <? 365)%Z
              then Some kenya_flat_regardless_of_holding else None |}
  end.

(** [TaxCalculator._calculate_us_cgt]. *)
Definition _calculate_us_cgt (gain : Q) (holding_days : Z) (cost_basis : Q)
  : result TaxResult :=
  let '(rate, kind, rec) :=
    if (US_threshold_days <=? holding_days)%Z
    then (0.15, "long_term"%string, us_long_term_rate)
    else (0.22, "short_term"%string,
          us_hold_more_days (US_threshold_days - holding_days)) in
  let owed := gain * rate in
  Ok {| gross_gain := gain;
        tax_owed := owed;
        net_gain := gain - owed;
        tax_rate := rate;
        holding_period_days := holding_days;
        jurisdiction := "us";
        tax_loss := None;
        taxable_gain := None;
        annual_allowance_used := None;
        tax_type := Some kind;
        taxpayer_status := None;
        recommendation := Some rec |}.

(** [TaxCalculator._calculate_uk_cgt]. *)
Definition _calculate_uk_cgt (gain : Q) (holding_days : Z)
  : result TaxResult :=
  let annual_allowance := UK_annual_allowance in
  let taxable := py_max 0 (gain - annual_allowance) in
  let rate := UK_basic_rate in
  let owed := taxable * rate in
  Ok {| gross_gain := gain;
        tax_owed := owed;
        net_gain := gain - owed;
        tax_rate := rate;
        holding_period_days := holding_days;
        jurisdiction := "uk";
        tax_loss := None;
        taxable_gain := Some taxable;
        annual_allowance_used := Some (py_min gain annual_allowance);
        tax_type := None;
        taxpayer_status := None;
        recommendation :=
          if Qltb gain annual_allowance
          then Some (uk_within_allowance annual_allowance) else None |}.

(** [TaxCalculator._calculate_international_cgt]. *)
Definition _calculate_international_cgt (gain : Q) (holding_days : Z)
  : result TaxResult :=
  let rate := 0.20 in
  let owed := gain * rate in
  Ok {| gross_gain := gain;
        tax_owed := owed;
        net_gain := gain - owed;
        tax_rate := rate;
        holding_period_days := holding_days;
        jurisdiction := "international";
        tax_loss := None;
        taxable_gain := None;
        annual_allowance_used := None;
        tax_type := None;
        taxpayer_status := None;
        recommendation := Some consult_local_advisor |}.

(** [(jurisdiction or self.default_jurisdiction).lower()]. *)
Definition resolve_jurisdiction (self : TaxCalculator)
    (j : option string) : string :=
  match j with
  | None => lower (default_jurisdiction self)
  | Some EmptyString => lower (default_jurisdiction self)
  | Some s => lower s
  end.

(** [TaxCalculator.calculate_capital_gains_tax]; [now] is what
    [datetime.now()] returns when [sale_date] is [None]. *)
Definition calculate_capital_gains_tax (self : TaxCalculator)
    (now : datetime) (purchase_price sale_price : Q) (quantity : Z)
    (purchase_date : datetime) (sale_date : option datetime)
    (j : option string) (status : string) : result TaxResult :=
  let sale_date := match sale_date with Some d => d | None => now end in
  let j := resolve_jurisdiction self j in
  let gain := (sale_price - purchase_price) * inject_Z quantity in
  let holding_days := days_between sale_date purchase_date in
  if Qleb gain 0 then
    Ok {| gross_gain := gain;
          tax_owed := 0;
          net_gain := gain;
          tax_rate := 0;
          holding_period_days := holding_days;
          jurisdiction := j;
          tax_loss := Some (Qabs gain);
          taxable_gain := None;
          annual_allowance_used := None;
          tax_type := None;
          taxpayer_status := None;
          recommendation := Some consider_tax_loss_harvesting |}
  else if String.eqb j "kenya" then
    _calculate_kenya_cgt gain holding_days status
  else if String.eqb j "us" then
    _calculate_us_cgt gain holding_days
      (purchase_price * inject_Z quantity)
  else if String.eqb j "uk" then
    _calculate_uk_cgt gain holding_days
  else
    _calculate_international_cgt gain holding_days.

(** [KENYA_TAX_RATES['dividend_tax']]. *)
Definition KENYA_dividend_tax : list (string * Q) :=
  [("resident"%string, 0.05); ("non_resident"%string, 0.15)].

(** [UK_TAX_RATES['dividend_tax']]: [allowance] and [basic_rate]. *)
Definition UK_dividend_allowance : Q := 500.
Definition UK_dividend_basic_rate : Q := 0.0875.

(** The dictionary a dividend calculation returns, without its [notes]. *)
Record DividendTax : Type := {
  dividend_amount : Q;
  dividend_tax_owed : Q;
  net_dividend : Q;
  dividend_tax_rate : Q;
  dividend_jurisdiction : string
}.

(** [TaxCalculator.calculate_dividend_tax]. *)
Definition calculate_dividend_tax (self : TaxCalculator) (amount : Q)
    (j : option string) (status : string) : result DividendTax :=
  let j := resolve_jurisdiction self j in
  let taxed (rate : Q) :=
    let owed := amount * rate in
    Ok {| dividend_amount := amount;
          dividend_tax_owed := owed;
          net_dividend := amount - owed;
          dividend_tax_rate := rate;
          dividend_jurisdiction := j |} in
  if String.eqb j "kenya" then
    match dict_get KENYA_dividend_tax status with
    | None => Raise (KeyError status)
    | Some rate => taxed rate
    end
  else if String.eqb j "us" then taxed 0.15
  else if String.eqb j "uk" then
    if Qleb amount UK_dividend_allowance then
      Ok {| dividend_amount := amount;
            dividend_tax_owed := 0;
            net_dividend := amount;
            dividend_tax_rate := 0;
            dividend_jurisdiction := j |}
    else taxed UK_dividend_basic_rate
  else taxed 0.15.

(** What [get_tax_optimization_advice] reads of a position whose
    [purchase_date] is a [datetime]. *)
Record OpenPosition : Type := {
  open_symbol : string;
  open_purchase_date : datetime;
  open_current_price : Q;
  open_average_cost : Q;
  open_total_quantity : Q
}.

(** The recommendations of [get_tax_optimization_advice], by [type], with
    the data each carries. *)
Inductive optimization : Type :=
| hold_for_long_term (sym : string) (potential_tax_savings : Q)
    (days_remaining : Z)
| tax_loss_harvesting (sym : string) (tax_loss_amount : Q) (holding_days : Z)
| year_end_planning (sym : string) (days_to_year_end : Z).

(** The [priority] of a recommendation. *)
Definition optimization_priority (o : optimization) : string :=
  match o with
  | hold_for_long_term _ _ _ => "high"
  | tax_loss_harvesting _ _ _ => "medium"
  | year_end_planning _ _ => "medium"
  end.

(** The recommendations for one position; [december_31] is
    [datetime(current_date.year, 12, 31)]. *)
Definition advice_for (self : TaxCalculator)
    (current_date december_31 : datetime) (pos : OpenPosition)
  : list optimization :=
  let sym := open_symbol pos in
  let holding_days := days_between current_date (open_purchase_date pos) in
  let unrealized_gain :=
    (open_current_price pos - open_average_cost pos)
    * open_total_quantity pos in
  let days_to_long_term := (365 - holding_days)%Z in
  let days_to_year_end := days_between december_31 current_date in
  (if String.eqb (default_jurisdiction self) "us"
      && Qltb 0 unrealized_gain
      && (0 <? days_to_long_term)%Z && (days_to_long_term <=? 30)%Z
   then [hold_for_long_term sym (unrealized_gain * 0.07) days_to_long_term]
   else [])
  ++ (if Qltb unrealized_gain (-1000)
      then [tax_loss_harvesting sym (Qabs unrealized_gain) holding_days]
      else [])
  ++ (if (days_to_year_end <=? 60)%Z && Qltb unrealized_gain 0
      then [year_end_planning sym days_to_year_end]
      else []).

(** [TaxCalculator.get_tax_optimization_advice]. *)
Definition get_tax_optimization_advice (self : TaxCalculator)
    (positions : list OpenPosition) (current_date december_31 : datetime)
  : list optimization :=
  flat_map (advice_for self current_date december_31) positions.

End TaxCalculator.

(** ** portfolio_manager.py *)

Module PortfolioManager.

(** The [Position] dataclass: one purchase lot. *)
Record Position : Type := {
  symbol : string;
  quantity : Q;
  purchase_price : Q;
  purchase_date : string;
  asset_type : string;
  market : string;
  notes : string
}.

(** The [Withdrawal] dataclass. *)
Record Withdrawal : Type := {
  amount : Q;
  date : string;
  withdrawal_type : string;
  withdrawal_notes : string
}.

Record ManualPrice : Type := {
  price : option Q;
  last_updated : string
}.

(** The portfolio dictionary of a user. *)
Record Portfolio : Type := {
  positions : list Position;
  withdrawals : list Withdrawal;
  cash_balance : Q;
  manual_prices : list (string * ManualPrice);
  withdrawal_rate : option Q;
  rebalance_threshold : option Q
}.

(** A [PortfolioManager]: the loaded portfolio, and the price the quote
    client answers for a symbol ([None] when it fails or has no price). *)
Record Manager : Type := {
  portfolio : Portfolio;
  fmp_price : string -> option Q
}.

Definition set_positions (pm : Manager) (ps : list Position) : Manager :=
  {| portfolio :=
       {| positions := ps;
          withdrawals := withdrawals (portfolio pm);
          cash_balance := cash_balance (portfolio pm);
          manual_prices := manual_prices (portfolio pm);
          withdrawal_rate := withdrawal_rate (portfolio pm);
          rebalance_threshold := rebalance_threshold (portfolio pm) |};
     fmp_price := fmp_price pm |}.

Record AddPositionResponse : Type := {
  success : bool;
  added : Position
}.

(** [PortfolioManager.add_position]; [today] is the formatted current
    date used when [purchase_date] is [None]. *)
Definition add_position (pm : Manager) (today : string)
    (sym : string) (qty price_paid : Q) (bought : option string)
    (kind mkt note : string) : Manager * AddPositionResponse :=
  let bought := match bought with Some d => d | None => today end in
  let position :=
    {| symbol := upper sym;
       quantity := qty;
       purchase_price := price_paid;
       purchase_date := bought;
       asset_type := kind;
       market := mkt;
       notes := note |} in
  (set_positions pm (positions (portfolio pm) ++ [position]),
   {| success := true; added := position |}).

(** [PortfolioManager.get_positions_by_symbol]. *)
Definition get_positions_by_symbol (pm : Manager) (sym : string)
  : list Position :=
  let sym := upper sym in
  filter (fun p => String.eqb (symbol p) sym) (positions (portfolio pm)).

(** [PortfolioManager.get_unique_symbols]. *)
Definition get_unique_symbols (pm : Manager) : list string :=
  nodup string_dec (map symbol (positions (portfolio pm))).

Record PositionPL : Type := {
  pl_symbol : string;
  pl_quantity : Q;
  cost_basis : Q;
  current_value : Q;
  pl_amount : Q;
  pl_percent : Q;
  is_gain : bool
}.

(** [PortfolioManager.calculate_position_pl]. *)
Definition calculate_position_pl (position : Position) (current_price : Q)
  : PositionPL :=
  let cost := quantity position * purchase_price position in
  let value := quantity position * current_price in
  let pl := value - cost in
  {| pl_symbol := symbol position;
     pl_quantity := quantity position;
     cost_basis := cost;
     current_value := value;
     pl_amount := pl;
     pl_percent := if Qltb 0 cost then pl / cost * 100 else 0;
     is_gain := Qleb 0 pl |}.

(** [PortfolioManager.get_current_price]. *)
Definition get_current_price (pm : Manager) (sym mkt : string) : option Q :=
  if String.eqb mkt "NSE" then
    match dict_get (manual_prices (portfolio pm)) sym with
    | Some price_data => price price_data
    | None => None
    end
  else fmp_price pm sym.

Record SymbolPL : Type := {
  sp_symbol : string;
  sp_total_quantity : Q;
  sp_average_cost : Q;
  sp_current_price : Q;
  sp_total_cost_basis : Q;
  sp_current_value : Q;
  sp_total_pl : Q;
  sp_total_pl_percent : Q;
  sp_entries : list PositionPL
}.

(** [PortfolioManager.calculate_symbol_pl]; [None] stands for the
    returned [{'error': ...}] dictionary. *)
Definition calculate_symbol_pl (pm : Manager) (sym : string)
  : option SymbolPL :=
  match get_positions_by_symbol pm sym with
  | [] => None
  | (first :: _) as found =>
      match get_current_price pm sym (market first) with
      | None => None
      | Some current_price =>
          let entries :=
            map (fun p => calculate_position_pl p current_price) found in
          let total_quantity :=
            fold_left (fun acc p => acc + quantity p) found 0 in
          let total_cost :=
            fold_left (fun acc e => acc + cost_basis e) entries 0 in
          let total_value :=
            fold_left (fun acc e => acc + current_value e) entries 0 in
          let total_pl := total_value - total_cost in
          Some {| sp_symbol := sym;
                  sp_total_quantity := total_quantity;
                  sp_average_cost :=
                    if Qltb 0 total_quantity
                    then total_cost / total_quantity else 0;
                  sp_current_price := current_price;
                  sp_total_cost_basis := total_cost;
                  sp_current_value := total_value;
                  sp_total_pl := total_pl;
                  sp_total_pl_percent :=
                    if Qltb 0 total_cost
                    then total_pl / total_cost * 100 else 0;
                  sp_entries := entries |}
      end
  end.

Record TotalPortfolio : Type := {
  total_value : Q;
  total_cost_basis : Q;
  tp_cash_balance : Q;
  total_pl : Q;
  total_pl_percent : Q;
  holdings : list SymbolPL;
  positions_count : nat;
  unique_assets : nat
}.

(** The loop of [calculate_total_portfolio] over the unique symbols. *)
Fixpoint collect_holdings (pm : Manager) (symbols : list string)
    (acc : list SymbolPL * (Q * Q)) : list SymbolPL * (Q * Q) :=
  match symbols with
  | [] => acc
  | sym :: rest =>
      let '(hs, (value, cost)) := acc in
      match calculate_symbol_pl pm sym with
      | Some pl =>
          collect_holdings pm rest
            (hs ++ [pl],
             (value + sp_current_value pl, cost + sp_total_cost_basis pl))
      | None => collect_holdings pm rest acc
      end
  end.

(** [PortfolioManager.calculate_total_portfolio]. *)
Definition calculate_total_portfolio (pm : Manager) : TotalPortfolio :=
  let symbols := get_unique_symbols pm in
  let '(hs, (value, cost)) := collect_holdings pm symbols ([], (0, 0)) in
  let cash := cash_balance (portfolio pm) in
  let value := value + cash in
  let pl := value - cost in
  {| total_value := value;
     total_cost_basis := cost;
     tp_cash_balance := cash;
     total_pl := pl;
     total_pl_percent := if Qltb 0 cost then pl / cost * 100 else 0;
     holdings := hs;
     positions_count := List.length (positions (portfolio pm));
     unique_assets := List.length symbols |}.

(** [PortfolioManager.get_withdrawal_summary]: the total withdrawn in a
    year, [year] being [str(year)]. *)
Definition ytd_total_withdrawn (pm : Manager) (year : string) : Q :=
  py_sum (map amount
            (filter (fun w => String.prefix year (date w))
                    (withdrawals (portfolio pm)))).

Record SafeWithdrawal : Type := {
  sw_portfolio_value : Q;
  sw_withdrawal_rate : Q;
  safe_annual : Q;
  safe_monthly : Q;
  ytd_withdrawn : Q;
  remaining_this_year : Q;
  guardrail_floor : Q;
  guardrail_ceiling : Q;
  current_is_safe : bool
}.

(** [PortfolioManager.calculate_safe_withdrawal]; [year] is the current
    year as a string. *)
Definition calculate_safe_withdrawal (pm : Manager) (year : string)
  : SafeWithdrawal :=
  let value := total_value (calculate_total_portfolio pm) in
  let rate :=
    match withdrawal_rate (portfolio pm) with
    | Some r => r
    | None => 0.04
    end in
  let annual := value * rate in
  let floor_withdrawal := value * 0.8 * 0.03 in
  let ytd := ytd_total_withdrawn pm year in
  {| sw_portfolio_value := value;
     sw_withdrawal_rate := rate;
     safe_annual := annual;
     safe_monthly := annual / 12;
     ytd_withdrawn := ytd;
     remaining_this_year := annual - ytd;
     guardrail_floor := floor_withdrawal;
     guardrail_ceiling := value * 1.2 * 0.045;
     current_is_safe := Qleb floor_withdrawal annual |}.

(** [d[k] = v] on a dictionary kept as an association list. *)
Fixpoint dict_set {V : Type} (d : list (string * V)) (k : string) (v : V)
  : list (string * V) :=
  match d with
  | [] => [(k, v)]
  | (k', v') :: d' =>
      if String.eqb k' k then (k', v) :: d' else (k', v') :: dict_set d' k v
  end.

(** [d[k] = d.get(k, 0) + x]. *)
Definition dict_add (d : list (string * Q)) (k : string) (x : Q)
  : list (string * Q) :=
  dict_set d k (match dict_get d k with Some y => y | None => 0 end + x).

Record SymbolAllocation : Type := {
  sa_value : Q;
  sa_percent : Q;
  sa_pl_percent : Q
}.

Record Allocation : Type := {
  by_asset_type : list (string * Q);
  by_market : list (string * Q);
  by_symbol : list (string * SymbolAllocation);
  allocation_total_value : Q
}.

(** The loop of [calculate_allocation] over the holdings; the total is
    known to be non-zero where it runs. *)
Fixpoint allocate (pm : Manager) (total : Q) (hs : list SymbolPL)
    (acc : Allocation) : Allocation :=
  match hs with
  | [] => acc
  | holding :: rest =>
      let sym := sp_symbol holding in
      let value := sp_current_value holding in
      let percent := value / total * 100 in
      let '(types, markets) :=
        match get_positions_by_symbol pm sym with
        | first :: _ =>
            (dict_add (by_asset_type acc) (asset_type first) percent,
             dict_add (by_market acc) (market first) percent)
        | [] => (by_asset_type acc, by_market acc)
        end in
      allocate pm total rest
        {| by_asset_type := types;
           by_market := markets;
           by_symbol :=
             dict_set (by_symbol acc) sym
               {| sa_value := value;
                  sa_percent := percent;
                  sa_pl_percent := sp_total_pl_percent holding |};
           allocation_total_value := total |}
  end.

(** [PortfolioManager.calculate_allocation]; [None] stands for the
    returned [{'error': 'Portfolio is empty'}]. *)
Definition calculate_allocation (pm : Manager) : option Allocation :=
  let totals := calculate_total_portfolio pm in
  let total := total_value totals in
  if Qeq_bool total 0 then None
  else
    let acc :=
      allocate pm total (holdings totals)
        {| by_asset_type := [];
           by_market := [];
           by_symbol := [];
           allocation_total_value := total |} in
    let cash_percent :=
      if Qltb 0 total then tp_cash_balance totals / total * 100 else 0 in
    Some {| by_asset_type := dict_set (by_asset_type acc) "cash" cash_percent;
            by_market := by_market acc;
            by_symbol := by_symbol acc;
            allocation_total_value := total |}.

(** [allocation.get('by_symbol', {})]. *)
Definition by_symbol_of (a : option Allocation)
  : list (string * SymbolAllocation) :=
  match a with
  | Some alloc => by_symbol alloc
  | None => []
  end.

(** [PortfolioManager._estimate_portfolio_risk]. *)
Definition _estimate_portfolio_risk (pm : Manager) : Q :=
  match by_symbol_of (calculate_allocation pm) with
  | [] => 0.5
  | symbols =>
      let high_risk_symbols := ["TSLA"; "NVDA"; "AMD"]%string in
      let moderate_risk := ["AAPL"; "MSFT"; "GOOGL"; "AMZN"]%string in
      let risk_total :=
        fold_left
          (fun acc (entry : string * SymbolAllocation) =>
             let '(sym, data) := entry in
             let weight := sa_percent data / 100 in
             if existsb (String.eqb sym) high_risk_symbols
             then acc + weight * 0.8
             else if existsb (String.eqb sym) moderate_risk
             then acc + weight * 0.5
             else acc + weight * 0.3)
          symbols 0 in
      py_min 1 (py_max 0 risk_total)
  end.

Record Scores : Type := {
  diversification : Q;
  risk_alignment : Q;
  performance : Q;
  sustainability : Q
}.

Inductive rating : Type :=
| Excellent
| Good
| Fair
| Needs_Attention.

Inductive insight : Type :=
| concentration_risk
| riskier_than_comfort_zone
| more_conservative_than_needed
| underperforming
| withdrawal_rate_too_high
| portfolio_is_healthy.

(** [PortfolioManager._generate_health_insights]. *)
Definition _generate_health_insights (scores : Scores)
    (user_risk portfolio_risk : Q) : list insight :=
  let insights :=
    (if Qltb (diversification scores) 20 then [concentration_risk] else [])
    ++ (if Qltb (risk_alignment scores) 20
        then if Qltb user_risk portfolio_risk
             then [riskier_than_comfort_zone]
             else [more_conservative_than_needed]
        else [])
    ++ (if Qltb (performance scores) 15 then [underperforming] else [])
    ++ (if Qltb (sustainability scores) 20
        then [withdrawal_rate_too_high] else []) in
  match insights with
  | [] => [portfolio_is_healthy]
  | _ => insights
  end.

Record HealthScore : Type := {
  total_score : Q;
  health_rating : rating;
  scores : Scores;
  insights : list insight
}.

(** [PortfolioManager.calculate_portfolio_health_score]; [year] is the
    current year as a string. *)
Definition calculate_portfolio_health_score (pm : Manager) (year : string)
    (user_risk_score : Q) : HealthScore :=
  (* 1. diversification *)
  let symbols := by_symbol_of (calculate_allocation pm) in
  let diversification0 :=
    fold_left
      (fun acc (entry : string * SymbolAllocation) =>
         if Qltb 15 (sa_percent (snd entry))
         then acc - (sa_percent (snd entry) - 15) * 0.5
         else acc)
      symbols 25 in
  let unique_count := Z.of_nat (List.length symbols) in
  let diversification1 :=
    if (unique_count <? 5)%Z
    then diversification0 - inject_Z ((5 - unique_count) * 3)
    else diversification0 in
  let s_diversification := py_max 0 (py_min 25 diversification1) in
  (* 2. risk alignment *)
  let portfolio_risk := _estimate_portfolio_risk pm in
  let risk_diff := Qabs (portfolio_risk - user_risk_score) in
  let s_risk_alignment :=
    if Qltb risk_diff 0.1 then 25
    else if Qltb risk_diff 0.2 then 20
    else if Qltb risk_diff 0.3 then 15
    else 10 in
  (* 3. performance *)
  let totals := calculate_total_portfolio pm in
  let pl_percent := total_pl_percent totals in
  let s_performance :=
    if Qltb 20 pl_percent then 25
    else if Qltb 10 pl_percent then 20
    else if Qltb 5 pl_percent then 15
    else if Qltb 0 pl_percent then 10
    else 5 in
  (* 4. withdrawal sustainability *)
  let withdrawal_calc := calculate_safe_withdrawal pm year in
  let ytd_rate :=
    if Qltb 0 (total_value totals)
    then ytd_withdrawn withdrawal_calc / total_value totals else 0 in
  let s_sustainability :=
    if Qltb ytd_rate 0.04 then 25
    else if Qltb ytd_rate 0.05 then 20
    else if Qltb ytd_rate 0.06 then 15
    else 10 in
  let all_scores :=
    {| diversification := s_diversification;
       risk_alignment := s_risk_alignment;
       performance := s_performance;
       sustainability := s_sustainability |} in
  let total :=
    py_sum [s_diversification; s_risk_alignment;
            s_performance; s_sustainability] in
  {| total_score := total;
     health_rating :=
       if Qleb 85 total then Excellent
       else if Qleb 70 total then Good
       else if Qleb 55 total then Fair
       else Needs_Attention;
     scores := all_scores;
     insights :=
       _generate_health_insights all_scores user_risk_score portfolio_risk |}.

Definition set_portfolio (pm : Manager) (p : Portfolio) : Manager :=
  {| portfolio := p; fmp_price := fmp_price pm |}.

Record UpdatePriceResponse : Type := {
  update_success : bool;
  updated_symbol : string;
  updated_price : Q
}.

(** [PortfolioManager.update_manual_price]; [now] is the formatted
    current time. *)
Definition update_manual_price (pm : Manager) (now : string) (sym : string)
    (new_price : Q) : Manager * UpdatePriceResponse :=
  let p := portfolio pm in
  (set_portfolio pm
     {| positions := positions p;
        withdrawals := withdrawals p;
        cash_balance := cash_balance p;
        manual_prices :=
          dict_set (manual_prices p) sym
            {| price := Some new_price; last_updated := now |};
        withdrawal_rate := withdrawal_rate p;
        rebalance_threshold := rebalance_threshold p |},
   {| update_success := true;
      updated_symbol := sym;
      updated_price := new_price |}).

Record AddWithdrawalResponse : Type := {
  withdrawal_success : bool;
  recorded : Withdrawal
}.

(** [PortfolioManager.add_withdrawal]; [today] is the formatted current
    date. *)
Definition add_withdrawal (pm : Manager) (today : string) (amt : Q)
    (kind note : string) : Manager * AddWithdrawalResponse :=
  let p := portfolio pm in
  let withdrawal :=
    {| amount := amt;
       date := today;
       withdrawal_type := kind;
       withdrawal_notes := note |} in
  (set_portfolio pm
     {| positions := positions p;
        withdrawals := withdrawals p ++ [withdrawal];
        cash_balance := cash_balance p;
        manual_prices := manual_prices p;
        withdrawal_rate := withdrawal_rate p;
        rebalance_threshold := rebalance_threshold p |},
   {| withdrawal_success := true; recorded := withdrawal |}).






End PortfolioManager.

(** ** app/services/portfolio_context.py *)

Module PortfolioContext.

Record Metadata : Type := {
  meta_beta : Q;
  meta_sector : string;
  meta_region : string
}.

Definition SYMBOL_METADATA : list (string * Metadata) :=
  [ ("AAPL", {| meta_beta := 1.20; meta_sector := "Technology"; meta_region := "US" |});
    ("TSLA", {| meta_beta := 1.60; meta_sector := "Technology"; meta_region := "US" |});
    ("AMZN", {| meta_beta := 1.15; meta_sector := "Technology"; meta_region := "US" |});
    ("MSFT", {| meta_beta := 1.00; meta_sector := "Technology"; meta_region := "US" |});
    ("SCOM", {| meta_beta := 0.80; meta_sector := "Telecom"; meta_region := "Kenya" |});
    ("EQTY", {| meta_beta := 0.70; meta_sector := "Financials"; meta_region := "Kenya" |});
    ("KCB", {| meta_beta := 0.75; meta_sector := "Financials"; meta_region := "Kenya" |});
    ("EABL", {| meta_beta := 0.65; meta_sector := "Consumer Staples"; meta_region := "Kenya" |});
    ("T-BILLS", {| meta_beta := 0.05; meta_sector := "Fixed Income"; meta_region := "Kenya" |});
    ("ETF_US_TOTAL", {| meta_beta := 1.00; meta_sector := "Multi"; meta_region := "US" |});
    ("ETF_GLOBAL", {| meta_beta := 0.95; meta_sector := "Multi"; meta_region := "Global" |})
  ]%string.

(** What [_build_allocation] reads of a summarized holding. *)
Record Holding : Type := {
  holding_symbol : string;
  holding_current_value : Q
}.

Record AllocationEntry : Type := {
  symbol : string;
  value : Q;
  percent : Q;
  sector : string;
  region : string;
  beta : Q
}.

(** [_build_allocation]. *)
Definition _build_allocation (holdings : list Holding)
    (total_portfolio_value cash_balance : Q) : list AllocationEntry :=
  let denom :=
    if Qltb 0 total_portfolio_value then total_portfolio_value else 1 in
  let entry (h : Holding) :=
    let meta := dict_get SYMBOL_METADATA (upper (holding_symbol h)) in
    {| symbol := holding_symbol h;
       value := holding_current_value h;
       percent := holding_current_value h / denom * 100;
       sector := match meta with Some m => meta_sector m | None => "General" end;
       region := match meta with Some m => meta_region m | None => "Global" end;
       beta := match meta with Some m => meta_beta m | None => 1 end |} in
  map entry holdings
  ++ (if Qltb 0 cash_balance
      then [{| symbol := "CASH";
               value := cash_balance;
               percent := cash_balance / denom * 100;
               sector := "Liquidity";
               region := "Global";
               beta := 0 |}]
      else []).

Record ConcentrationAlert : Type := {
  alert_symbol : string;
  current_percent : Q;
  target_percent : Q;
  suggested_sell_amount : Q
}.

(** [max(l, key=percent)] continued from a current best: a later entry
    replaces it only when its percent is strictly larger. *)
Fixpoint max_by_percent (best : AllocationEntry) (l : list AllocationEntry)
  : AllocationEntry :=
  match l with
  | [] => best
  | a :: l' =>
      max_by_percent (if Qltb (percent best) (percent a) then a else best) l'
  end.

Definition is_cash (a : AllocationEntry) : bool :=
  String.eqb (symbol a) "CASH".

(** [_detect_concentration]. *)
Definition _detect_concentration (allocation : list AllocationEntry)
    (total_value : Q) : option ConcentrationAlert :=
  if Qleb total_value 0 || is_empty allocation then None
  else
    match filter (fun a => negb (is_cash a)) allocation with
    | [] => None
    | first :: rest =>
        let largest := max_by_percent first rest in
        if Qleb (percent largest) 60 then None
        else
          let target := 60 in
          let excess_percent := percent largest - target in
          Some {| alert_symbol := symbol largest;
                  current_percent := percent largest;
                  target_percent := target;
                  suggested_sell_amount :=
                    total_value * (excess_percent / 100) |}
    end.

End PortfolioContext.

(** ** server.py: the ledger endpoints *)

Module Server.

(** One purchase lot in the [entries] of a position row. *)
Record Entry : Type := {
  entry_quantity : Q;
  entry_price : Q;
  entry_date : string;
  entry_notes : string
}.

(** A row of the [positions] table. *)
Record PositionRow : Type := {
  id : nat;
  symbol : string;
  asset_type : string;
  entries : list Entry;
  total_quantity : Q;
  average_cost : Q;
  total_invested : Q;
  current_price : Q;
  manual_price : bool
}.

Record WithdrawalRow : Type := {
  withdrawal_amount : Q;
  withdrawal_date : string;
  withdrawal_type : string;
  withdrawal_notes : string
}.

Record Trade : Type := {
  trade_symbol : string;
  trade_quantity : Q;
  price_per_share : Q;
  total_amount : Q;
  trade_cost_basis : Q;
  trade_realized_pl : Q;
  trade_realized_pl_percent : Q;
  trade_date : string;
  trade_notes : string
}.

(** The rows of one user's portfolio: its [cash_balance], its
    positions, its withdrawals, and the optional [trade_history] table
    ([None] when the table does not exist). *)
Record Ledger : Type := {
  cash_balance : Q;
  positions : list PositionRow;
  withdrawals : list WithdrawalRow;
  trade_history : option (list Trade);
  next_id : nat
}.

(** The messages of the exceptions the endpoints raise, by kind. *)
Inductive detail : Type :=
| insufficient_cash_to_buy (need have : Q)
| position_not_found (sym : string)
| cannot_sell (quantity_to_sell current_quantity : Q) (sym : string)
| insufficient_cash_to_withdraw (have amount : Q)
| deposit_amount_must_be_positive
| float_division_by_zero.

Record HTTPException : Type := {
  status_code : Z;
  http_detail : detail
}.

Definition set_cash (l : Ledger) (cash : Q) : Ledger :=
  {| cash_balance := cash;
     positions := positions l;
     withdrawals := withdrawals l;
     trade_history := trade_history l;
     next_id := next_id l |}.

Definition set_rows (l : Ledger) (rows : list PositionRow) : Ledger :=
  {| cash_balance := cash_balance l;
     positions := rows;
     withdrawals := withdrawals l;
     trade_history := trade_history l;
     next_id := next_id l |}.

(** [.select("*").eq("symbol", symbol)] and [data[0]]. *)
Definition find_position (l : Ledger) (sym : string) : option PositionRow :=
  find (fun r => String.eqb (symbol r) sym) (positions l).

(** [.update(...).eq("id", i)]. *)
Definition update_row (l : Ledger) (i : nat)
    (f : PositionRow -> PositionRow) : Ledger :=
  set_rows l (map (fun r => if Nat.eqb (id r) i then f r else r) (positions l)).

(** [.delete().eq("id", i)]. *)
Definition delete_row (l : Ledger) (i : nat) : Ledger :=
  set_rows l (filter (fun r => negb (Nat.eqb (id r) i)) (positions l)).

Record DepositResponse : Type := {
  deposited : Q;
  new_balance : Q
}.

(** [deposit_cash] of server.py, for an authenticated user whose
    portfolio row exists. *)
Definition deposit_cash (l : Ledger) (amount : Q)
  : Ledger * (HTTPException + DepositResponse) :=
  if Qleb amount 0 then
    (l, inl {| status_code := 400;
               http_detail := deposit_amount_must_be_positive |})
  else
    let balance := cash_balance l + amount in
    (set_cash l balance,
     inr {| deposited := amount; new_balance := balance |}).

(** The request body of [/api/portfolio/position/add], parsed. *)
Record AddRequest : Type := {
  add_symbol : string;
  add_quantity : Q;
  add_purchase_price : Q;
  add_purchase_date : option string;
  add_market : option string;
  add_asset_type : option string;
  add_notes : string
}.

Record AddResponse : Type := {
  cash_spent : Q;
  add_new_cash_balance : Q
}.

Definition normalize_asset_type (a : option string) : string :=
  let a := match a with
           | None | Some EmptyString => "stock"%string
           | Some s => s
           end in
  let a := lower a in
  let a := if String.eqb a "fund" then "other"%string else a in
  if existsb (String.eqb a) ["stock"; "etf"; "crypto"; "bond"; "other"]%string
  then a else "other"%string.

(** [add_position] of server.py, for an authenticated user whose
    portfolio row exists; [today] is the formatted current date. *)
Definition add_position (l : Ledger) (today : string) (data : AddRequest)
  : Ledger * (HTTPException + AddResponse) :=
  let cash := cash_balance l in
  let sym := upper (add_symbol data) in
  let quantity := add_quantity data in
  let purchase_price := add_purchase_price data in
  let purchase_date :=
    match add_purchase_date data with
    | None | Some EmptyString => today
    | Some d => d
    end in
  let market := match add_market data with Some m => m | None => "US"%string end in
  let is_manual := String.eqb market "NSE" in
  let asset := normalize_asset_type (add_asset_type data) in
  let total_cost := quantity * purchase_price in
  if Qltb cash total_cost then
    (l, inl {| status_code := 500;
               http_detail := insufficient_cash_to_buy total_cost cash |})
  else
    let entry := {| entry_quantity := quantity;
                    entry_price := purchase_price;
                    entry_date := purchase_date;
                    entry_notes := add_notes data |} in
    let new_cash_balance := cash - total_cost in
    let response := inr {| cash_spent := total_cost;
                           add_new_cash_balance := new_cash_balance |} in
    match find_position l sym with
    | Some pos =>
        let current_entries := entries pos ++ [entry] in
        let quantity_sum :=
          py_sum (map entry_quantity current_entries) in
        let invested_sum :=
          py_sum (map (fun e => entry_quantity e * entry_price e)
                      current_entries) in
        let average :=
          if Qltb 0 quantity_sum then invested_sum / quantity_sum else 0 in
        let l1 :=
          update_row l (id pos)
            (fun r => {| id := id r;
                         symbol := symbol r;
                         asset_type := asset_type r;
                         entries := current_entries;
                         total_quantity := quantity_sum;
                         average_cost := average;
                         total_invested := invested_sum;
                         current_price := current_price r;
                         manual_price := manual_price r |}) in
        (set_cash l1 new_cash_balance, response)
    | None =>
        let row := {| id := next_id l;
                      symbol := sym;
                      asset_type := asset;
                      entries := [entry];
                      total_quantity := quantity;
                      average_cost := purchase_price;
                      total_invested := quantity * purchase_price;
                      current_price := purchase_price;
                      manual_price := is_manual |} in
        let l1 := {| cash_balance := cash_balance l;
                     positions := positions l ++ [row];
                     withdrawals := withdrawals l;
                     trade_history := trade_history l;
                     next_id := S (next_id l) |} in
        (set_cash l1 new_cash_balance, response)
    end.

(** The request body of [/api/portfolio/position/sell], parsed. *)
Record SellRequest : Type := {
  sell_symbol : string;
  sell_quantity : Q;
  sell_price : option Q;
  sell_notes : string
}.

Record SellResponse : Type := {
  sale_proceeds : Q;
  sell_new_cash_balance : Q;
  realized_profit_loss : Q;
  realized_pl_percent : Q;
  cost_basis : Q
}.

(** [supabase.table("trade_history").insert(...)] inside its own
    [try]: a missing table only logs a warning. *)
Definition record_trade (l : Ledger) (t : Trade) : Ledger :=
  {| cash_balance := cash_balance l;
     positions := positions l;
     withdrawals := withdrawals l;
     trade_history :=
       match trade_history l with
       | Some trades => Some (trades ++ [t])
       | None => None
       end;
     next_id := next_id l |}.

(** [sell_position] of server.py, for an authenticated user whose
    portfolio row exists. *)
Definition sell_position (l : Ledger) (today : string) (data : SellRequest)
  : Ledger * (HTTPException + SellResponse) :=
  let cash := cash_balance l in
  let sym := upper (sell_symbol data) in
  let quantity_to_sell := sell_quantity data in
  let price := match sell_price data with Some p => p | None => 0 end in
  match find_position l sym with
  | None =>
      (l, inl {| status_code := 400; http_detail := position_not_found sym |})
  | Some pos =>
      let current_quantity := total_quantity pos in
      if Qltb current_quantity quantity_to_sell then
        (l, inl {| status_code := 400;
                   http_detail :=
                     cannot_sell quantity_to_sell current_quantity sym |})
      else
        let proceeds := quantity_to_sell * price in
        let avg_cost := average_cost pos in
        let basis := quantity_to_sell * avg_cost in
        let realized_pl := proceeds - basis in
        let realized_pl_pct :=
          if Qltb 0 basis then realized_pl / basis * 100 else 0 in
        let new_cash_balance := cash + proceeds in
        let l1 := set_cash l new_cash_balance in
        let l2 :=
          record_trade l1
            {| trade_symbol := sym;
               trade_quantity := quantity_to_sell;
               price_per_share := price;
               total_amount := proceeds;
               trade_cost_basis := basis;
               trade_realized_pl := realized_pl;
               trade_realized_pl_percent := realized_pl_pct;
               trade_date := today;
               trade_notes := sell_notes data |} in
        let response :=
          inr {| sale_proceeds := proceeds;
                 sell_new_cash_balance := new_cash_balance;
                 realized_profit_loss := realized_pl;
                 realized_pl_percent := realized_pl_pct;
                 cost_basis := basis |} in
        if Qleb current_quantity quantity_to_sell then
          (delete_row l2 (id pos), response)
        else
          let new_quantity := current_quantity - quantity_to_sell in
          let old_invested := total_invested pos in
          match py_div new_quantity current_quantity with
          | Raise _ =>
              (l2, inl {| status_code := 500;
                          http_detail := float_division_by_zero |})
          | Ok fraction =>
              let new_invested := old_invested * fraction in
              (update_row l2 (id pos)
                 (fun r => {| id := id r;
                              symbol := symbol r;
                              asset_type := asset_type r;
                              entries := entries r;
                              total_quantity := new_quantity;
                              average_cost := average_cost r;
                              total_invested := new_invested;
                              current_price := current_price r;
                              manual_price := manual_price r |}),
               response)
          end
  end.

(** The request body of [/api/portfolio/withdrawal/add], parsed. *)
Record WithdrawRequest : Type := {
  req_amount : Q;
  req_withdrawal_date : option string;
  req_withdrawal_type : option string;
  req_notes : string
}.

Record WithdrawResponse : Type := {
  withdrawn : Q;
  withdraw_new_cash_balance : Q
}.

(** [add_withdrawal] of server.py, for an authenticated user whose
    portfolio row exists. *)
Definition add_withdrawal (l : Ledger) (today : string)
    (data : WithdrawRequest) : Ledger * (HTTPException + WithdrawResponse) :=
  let cash := cash_balance l in
  let amount := req_amount data in
  if Qltb cash amount then
    (l, inl {| status_code := 500;
               http_detail := insufficient_cash_to_withdraw cash amount |})
  else
    let date :=
      match req_withdrawal_date data with
      | None | Some EmptyString => today
      | Some d => d
      end in
    let new_cash_balance := cash - amount in
    let l1 := set_cash l new_cash_balance in
    let row :=
      {| withdrawal_amount := amount;
         withdrawal_date := date;
         withdrawal_type :=
           match req_withdrawal_type data with
           | Some t => t
           | None => "general"
           end;
         withdrawal_notes := req_notes data |} in
    ({| cash_balance := cash_balance l1;
        positions := positions l1;
        withdrawals := withdrawals l1 ++ [row];
        trade_history := trade_history l1;
        next_id := next_id l1 |},
     inr {| withdrawn := amount;
            withdraw_new_cash_balance := new_cash_balance |}).

End Server.

(** ** event_detector.py *)

Module EventDetector.

Inductive priority : Type :=
| PRIORITY_CRITICAL
| PRIORITY_HIGH
| PRIORITY_MEDIUM
| PRIORITY_LOW.

(** The [type] of an event. *)
Inductive event_type : Type :=
| large_gain
| large_loss
| risk_drift
| rebalancing_needed
| concentration_risk
| low_diversification
| tax_optimization_hold
| tax_loss_harvesting
| year_end_tax_planning
| profit_taking
| stop_loss_alert.

(** An event dictionary without its formatted [message]; [data] keeps
    the numeric entries under their keys. *)
Record Event : Type := {
  type : event_type;
  event_priority : priority;
  event_symbol : option string;
  data : list (string * Q)
}.

(** What the detectors read of a position; [first_entry_date] is the
    parsed [date] of [entries[0]], [None] when there is no entry, no
    date, or the date does not parse. *)
Record Position : Type := {
  symbol : string;
  total_quantity : Q;
  current_price : Q;
  average_cost : Q;
  first_entry_date : option TaxCalculator.datetime
}.

(** [EventDetector._detect_price_movements]. *)
Definition _detect_price_movements (positions : list Position) : list Event :=
  flat_map
    (fun pos =>
       if Qltb 0 (average_cost pos) then
         let price_change_pct :=
           (current_price pos - average_cost pos) / average_cost pos * 100 in
         let numbers :=
           [("price_change_pct"%string, price_change_pct);
            ("current_price"%string, current_price pos);
            ("avg_cost"%string, average_cost pos)] in
         if Qltb 20 price_change_pct then
           [{| type := large_gain;
               event_priority := PRIORITY_HIGH;
               event_symbol := Some (symbol pos);
               data := numbers |}]
         else if Qltb price_change_pct (-15) then
           [{| type := large_loss;
               event_priority := PRIORITY_MEDIUM;
               event_symbol := Some (symbol pos);
               data := numbers |}]
         else []
       else [])
    positions.

Definition position_value (pos : Position) : Q :=
  total_quantity pos * current_price pos.

(** [sum(p.total_quantity * p.current_price for p in positions)]. *)
Definition positions_total_value (positions : list Position) : Q :=
  py_sum (map position_value positions).

(** [max(l)] on a non-empty list of floats, given as head and tail. *)
Definition py_max_list (x : Q) (l : list Q) : Q := fold_left py_max l x.

(** [l.index(v)] on floats, counted from [i]. *)
Fixpoint py_index_of (v : Q) (l : list Q) (i : nat) : option nat :=
  match l with
  | [] => None
  | x :: l' => if Qeq_bool x v then Some i else py_index_of v l' (S i)
  end.

(** [EventDetector._detect_risk_drift]; [user_risk_score] is
    [user_profile.get('risk_score', 0.5)]. *)
Definition _detect_risk_drift (user_risk_score : Q)
    (positions : list Position) : list Event :=
  let total_value := positions_total_value positions in
  if Qeq_bool total_value 0 then []
  else
    let position_percentages :=
      map (fun p => position_value p / total_value * 100) positions in
    let max_position_pct :=
      match position_percentages with
      | [] => 0
      | x :: l => py_max_list x l
      end in
    let max_acceptable :=
      if Qltb user_risk_score 0.3 then 15
      else if Qltb user_risk_score 0.6 then 25
      else 35 in
    if Qltb max_acceptable max_position_pct then
      match py_index_of max_position_pct position_percentages 0 with
      | Some i =>
          match nth_error positions i with
          | Some largest_position =>
              [{| type := risk_drift;
                  event_priority := PRIORITY_HIGH;
                  event_symbol := Some (symbol largest_position);
                  data := [("position_pct"%string, max_position_pct);
                           ("max_acceptable"%string, max_acceptable);
                           ("user_risk_score"%string, user_risk_score)] |}]
          | None => []
          end
      | None => []
      end
    else [].

(** [EventDetector._detect_rebalancing_opportunities]. *)
Definition _detect_rebalancing_opportunities (positions : list Position)
  : list Event :=
  let total_value := positions_total_value positions in
  if Qeq_bool total_value 0 then []
  else
    flat_map
      (fun pos =>
         let position_pct := position_value pos / total_value * 100 in
         if Qltb 30 position_pct then
           [{| type := rebalancing_needed;
               event_priority := PRIORITY_MEDIUM;
               event_symbol := Some (symbol pos);
               data := [("position_pct"%string, position_pct);
                        ("position_value"%string, position_value pos)] |}]
         else [])
      positions.

(** [EventDetector._detect_concentration_risk]. *)
Definition _detect_concentration_risk (positions : list Position)
  : list Event :=
  let num_positions := List.length positions in
  let numbers :=
    [("num_positions"%string, inject_Z (Z.of_nat num_positions))] in
  if Nat.eqb num_positions 1 then
    [{| type := concentration_risk;
        event_priority := PRIORITY_HIGH;
        event_symbol := None;
        data := numbers |}]
  else if Nat.ltb num_positions 5 then
    [{| type := low_diversification;
        event_priority := PRIORITY_MEDIUM;
        event_symbol := None;
        data := numbers |}]
  else [].

(** [EventDetector._detect_tax_opportunities]; [now] is [datetime.now()]
    and [december_31] is [datetime(datetime.now().year, 12, 31)]. *)
Definition _detect_tax_opportunities (now december_31 : TaxCalculator.datetime)
    (positions : list Position) : list Event :=
  flat_map
    (fun pos =>
       match first_entry_date pos with
       | None => []
       | Some purchase_date =>
           let holding_days := TaxCalculator.days_between now purchase_date in
           let unrealized_gain :=
             (current_price pos - average_cost pos) * total_quantity pos in
           let days_to_year_end :=
             TaxCalculator.days_between december_31 now in
           (if Qltb 0 unrealized_gain
               && (335 <=? holding_days)%Z && (holding_days <? 365)%Z
            then
              [{| type := tax_optimization_hold;
                  event_priority := PRIORITY_HIGH;
                  event_symbol := Some (symbol pos);
                  data :=
                    [("days_to_long_term"%string,
                      inject_Z (365 - holding_days));
                     ("potential_tax_savings"%string, unrealized_gain * 0.07);
                     ("holding_days"%string, inject_Z holding_days)] |}]
            else if Qltb unrealized_gain (-1000) then
              [{| type := tax_loss_harvesting;
                  event_priority := PRIORITY_MEDIUM;
                  event_symbol := Some (symbol pos);
                  data :=
                    [("tax_loss_amount"%string, Qabs unrealized_gain);
                     ("holding_days"%string, inject_Z holding_days)] |}]
            else [])
           ++ (if (0 <? days_to_year_end)%Z && (days_to_year_end <=? 45)%Z
                  && Qltb unrealized_gain (-500)
               then
                 [{| type := year_end_tax_planning;
                     event_priority := PRIORITY_HIGH;
                     event_symbol := Some (symbol pos);
                     data :=
                       [("days_to_year_end"%string, inject_Z days_to_year_end);
                        ("loss_amount"%string, Qabs unrealized_gain)] |}]
               else [])
       end)
    positions.

(** [EventDetector._detect_profit_taking_opportunities]. *)
Definition _detect_profit_taking_opportunities (positions : list Position)
  : list Event :=
  flat_map
    (fun pos =>
       if Qltb 0 (average_cost pos) then
         let gain_pct :=
           (current_price pos - average_cost pos) / average_cost pos * 100 in
         if Qltb 50 gain_pct then
           [{| type := profit_taking;
               event_priority := PRIORITY_MEDIUM;
               event_symbol := Some (symbol pos);
               data :=
                 [("gain_pct"%string, gain_pct);
                  ("unrealized_gain"%string,
                   (current_price pos - average_cost pos)
                   * total_quantity pos)] |}]
         else []
       else [])
    positions.

(** [EventDetector._detect_stop_loss_triggers]. *)
Definition _detect_stop_loss_triggers (positions : list Position)
  : list Event :=
  flat_map
    (fun pos =>
       if Qltb 0 (average_cost pos) then
         let loss_pct :=
           (current_price pos - average_cost pos) / average_cost pos * 100 in
         if Qltb loss_pct (-25) then
           [{| type := stop_loss_alert;
               event_priority := PRIORITY_HIGH;
               event_symbol := Some (symbol pos);
               data := [("loss_pct"%string, loss_pct);
                        ("current_price"%string, current_price pos);
                        ("avg_cost"%string, average_cost pos)] |}]
         else []
       else [])
    positions.

(** [priority_order.get(e['priority'], 999)]. *)
Definition priority_order (p : priority) : Z :=
  match p with
  | PRIORITY_CRITICAL => 0
  | PRIORITY_HIGH => 1
  | PRIORITY_MEDIUM => 2
  | PRIORITY_LOW => 3
  end.

(** [events.sort(key=...)]: a stable insertion sort on the key. *)
Fixpoint insert_by_priority (e : Event) (l : list Event) : list Event :=
  match l with
  | [] => [e]
  | e' :: l' =>
      if (priority_order (event_priority e)
          <=? priority_order (event_priority e'))%Z
      then e :: e' :: l'
      else e' :: insert_by_priority e l'
  end.

Fixpoint sort_by_priority (l : list Event) : list Event :=
  match l with
  | [] => []
  | e :: l' => insert_by_priority e (sort_by_priority l')
  end.

(** The events of all detectors, in the order they are collected. *)
Definition collect_events (now december_31 : TaxCalculator.datetime)
    (user_risk_score : Q) (positions : list Position) : list Event :=
  _detect_price_movements positions
  ++ _detect_risk_drift user_risk_score positions
  ++ _detect_rebalancing_opportunities positions
  ++ _detect_concentration_risk positions
  ++ _detect_tax_opportunities now december_31 positions
  ++ _detect_profit_taking_opportunities positions
  ++ _detect_stop_loss_triggers positions.

(** [EventDetector.detect_all_events]. *)
Definition detect_all_events (now december_31 : TaxCalculator.datetime)
    (user_risk_score : Q) (positions : list Position) : list Event :=
  sort_by_priority (collect_events now december_31 user_risk_score positions).

End EventDetector.

(** ** app/services/currency.py *)

Module Currency.





End Currency.

(** ** The end-to-end scenario on IEEE binary64 numbers

    The two computations of the scenario, transcribed with the kernel's
    binary64 floats in place of rationals. *)

Module Binary64.

Open Scope float_scope.

(** [cost_basis], [current_value], [pl_amount] and [pl_percent] of
    [PortfolioManager.calculate_position_pl]. *)
Definition calculate_position_pl (quantity purchase_price current_price : float)
  : float * float * float * float :=
  let cost := quantity * purchase_price in
  let value := quantity * current_price in
  let pl := value - cost in
  let pl_percent := if PrimFloat.ltb 0 cost then pl / cost * 100 else 0 in
  (cost, value, pl, pl_percent).

(** [gross_gain], [tax_owed] and [net_gain] of a sale at a gain under
    [TaxCalculator._calculate_kenya_cgt], the rate being the binary64
    number nearest to 0.05; [None] on the loss branch. *)
Definition kenya_capital_gains (purchase_price sale_price quantity : float)
  : option (float * float * float) :=
  let gain := (sale_price - purchase_price) * quantity in
  if PrimFloat.leb gain 0 then None
  else
    let rate := 0x1.999999999999ap-5 in
    let owed := gain * rate in
    Some (gain, owed, gain - owed).

End Binary64.

(** * Vocabulary of the properties *)

Module Vocabulary.
Import WithdrawalPlanner.

(** The per-trial records [all_results] that a run collects. *)
Definition trial_results (g : rng) (starting_portfolio annual_withdrawal : Q)
    (years sims : Z) : list TrialResult :=
  snd (snd (simulate_trials (Z.to_nat sims) g starting_portfolio
              annual_withdrawal (Z.to_nat years) 0%Z [])).

(** Two generator states yield the same next [n] variates. *)
Definition same_draws (n : nat) (g1 g2 : rng) : Prop :=
  forall i, (i < n)%nat ->
    variates g1 (cursor g1 + i)%nat = variates g2 (cursor g2 + i)%nat.

(** A generator whose first variate is 1 (a return of 22%) and whose
    later ones are -1 (a return of -8%). *)
Definition up_then_down : rng :=
  {| variates := fun i => match i with O => 1 | S _ => -1 end;
     cursor := 0 |}.

(** Two generator states that agree on their next two variates only. *)
Definition flat : rng :=
  {| variates := fun _ => 0; cursor := 0 |}.

Definition flat_then_up : rng :=
  {| variates := fun i => if Nat.ltb i 7 then 0 else 1; cursor := 5 |}.

(** A two-asset portfolio worth 100 with its larger holding at 61%, and
    the same at exactly 60%. *)
Definition two_assets_61_39 : list PortfolioContext.AllocationEntry :=
  PortfolioContext._build_allocation
    [{| PortfolioContext.holding_symbol := "AAPL";
        PortfolioContext.holding_current_value := 61 |};
     {| PortfolioContext.holding_symbol := "MSFT";
        PortfolioContext.holding_current_value := 39 |}]
    100 0.

Definition two_assets_60_40 : list PortfolioContext.AllocationEntry :=
  PortfolioContext._build_allocation
    [{| PortfolioContext.holding_symbol := "AAPL";
        PortfolioContext.holding_current_value := 60 |};
     {| PortfolioContext.holding_symbol := "MSFT";
        PortfolioContext.holding_current_value := 40 |}]
    100 0.

Definition cash_only_entry : PortfolioContext.AllocationEntry :=
  {| PortfolioContext.symbol := "CASH";
     PortfolioContext.value := 0;
     PortfolioContext.percent := 0;
     PortfolioContext.sector := "Liquidity";
     PortfolioContext.region := "Global";
     PortfolioContext.beta := 0 |}.

(** A ledger with no position and no cash. *)
Definition empty_ledger : Server.Ledger :=
  {| Server.cash_balance := 0;
     Server.positions := [];
     Server.withdrawals := [];
     Server.trade_history := Some [];
     Server.next_id := 0 |}.

(** A request to add -1 unit of AAPL bought at 10. *)
Definition negative_lot : Server.AddRequest :=
  {| Server.add_symbol := "aapl";
     Server.add_quantity := -1;
     Server.add_purchase_price := 10;
     Server.add_purchase_date := Some "2024-01-15"%string;
     Server.add_market := None;
     Server.add_asset_type := None;
     Server.add_notes := "" |}.

(** A ledger holding 10 units of AAPL bought at 150, and 50 in cash. *)
Definition aapl_row : Server.PositionRow :=
  {| Server.id := 0;
     Server.symbol := "AAPL";
     Server.asset_type := "stock";
     Server.entries :=
       [{| Server.entry_quantity := 10;
           Server.entry_price := 150;
           Server.entry_date := "2024-01-15";
           Server.entry_notes := "" |}];
     Server.total_quantity := 10;
     Server.average_cost := 150;
     Server.total_invested := 1500;
     Server.current_price := 150;
     Server.manual_price := false |}.

Definition aapl_ledger : Server.Ledger :=
  {| Server.cash_balance := 50;
     Server.positions := [aapl_row];
     Server.withdrawals := [];
     Server.trade_history := Some [];
     Server.next_id := 1 |}.

Definition sell_aapl (quantity price : Q) : Server.SellRequest :=
  {| Server.sell_symbol := "aapl";
     Server.sell_quantity := quantity;
     Server.sell_price := Some price;
     Server.sell_notes := "" |}.

Definition withdraw_cash (amount : Q) : Server.WithdrawRequest :=
  {| Server.req_amount := amount;
     Server.req_withdrawal_date := None;
     Server.req_withdrawal_type := None;
     Server.req_notes := "" |}.


(** The portfolio of the manager's own test run: two lots of AAPL and
    one of MSFT, quoted at 270 and 400, and one withdrawal of 100. *)
Definition test_lot (sym : string) (qty price_paid : Q) (bought : string)
  : PortfolioManager.Position :=
  {| PortfolioManager.symbol := sym;
     PortfolioManager.quantity := qty;
     PortfolioManager.purchase_price := price_paid;
     PortfolioManager.purchase_date := bought;
     PortfolioManager.asset_type := "stock";
     PortfolioManager.market := "US";
     PortfolioManager.notes := "" |}.

Definition test_manager : PortfolioManager.Manager :=
  {| PortfolioManager.portfolio :=
       {| PortfolioManager.positions :=
            [test_lot "AAPL" 10 250 "2024-01-15";
             test_lot "AAPL" 5 265 "2024-03-20";
             test_lot "MSFT" 8 380 "2024-02-10"];
          PortfolioManager.withdrawals :=
            [{| PortfolioManager.amount := 100;
                PortfolioManager.date := "2024-05-01";
                PortfolioManager.withdrawal_type := "regular";
                PortfolioManager.withdrawal_notes := "" |}];
          PortfolioManager.cash_balance := 0;
          PortfolioManager.manual_prices := [];
          PortfolioManager.withdrawal_rate := Some 0.04;
          PortfolioManager.rebalance_threshold := Some 0.10 |};
     PortfolioManager.fmp_price :=
       fun sym =>
         if String.eqb sym "AAPL" then Some 270
         else if String.eqb sym "MSFT" then Some 400
         else None |}.

(** A number of days as a [datetime] offset. *)
Definition days (n : Z) : TaxCalculator.datetime := (n * 86400000000)%Z.

(** The event carries the priority [p]. *)
Definition has_priority (p : EventDetector.priority)
    (e : EventDetector.Event) : bool :=
  (EventDetector.priority_order (EventDetector.event_priority e)
   =? EventDetector.priority_order p)%Z.

(** The share of a position in the value of all of them, in percent, as
    the detectors compute it. *)
Definition position_pct (positions : list EventDetector.Position)
    (p : EventDetector.Position) : Q :=
  EventDetector.position_value p
  / EventDetector.positions_total_value positions * 100.

(** The change of the price of a position against its average cost, in
    percent. *)
Definition price_change_pct (p : EventDetector.Position) : Q :=
  (EventDetector.current_price p - EventDetector.average_cost p)
  / EventDetector.average_cost p * 100.

End Vocabulary.

(** * Properties *)

(** ** Comparisons and clamps *)

Lemma Qltb_spec (a b : Q) : BoolSpec (a < b) (b <= a) (Qltb a b).
Proof.
  unfold Qltb. destruct (Qle_bool b a) eqn:E; simpl; constructor.
  - now apply Qle_bool_iff.
  - apply Qnot_le_lt. intro H. apply Qle_bool_iff in H. congruence.
Qed.

Lemma Qleb_spec (a b : Q) : BoolSpec (a <= b) (b < a) (Qleb a b).
Proof.
  unfold Qleb. destruct (Qle_bool a b) eqn:E; constructor.
  - now apply Qle_bool_iff.
  - apply Qnot_le_lt. intro H. apply Qle_bool_iff in H. congruence.
Qed.

Lemma Qltb_true (a b : Q) : a < b -> Qltb a b = true.
Proof. intro H. destruct (Qltb_spec a b); [reflexivity | lra]. Qed.

Lemma Qltb_false (a b : Q) : b <= a -> Qltb a b = false.
Proof. intro H. destruct (Qltb_spec a b); [lra | reflexivity]. Qed.

Lemma Qleb_true (a b : Q) : a <= b -> Qleb a b = true.
Proof. intro H. destruct (Qleb_spec a b); [reflexivity | lra]. Qed.

Lemma Qleb_false (a b : Q) : b < a -> Qleb a b = false.
Proof. intro H. destruct (Qleb_spec a b); [lra | reflexivity]. Qed.

Lemma py_max_lower (a b : Q) : a <= py_max a b.
Proof. unfold py_max. destruct (Qltb_spec a b); lra. Qed.

Lemma py_max_cases (a b : Q) :
  (a < b /\ py_max a b = b) \/ (b <= a /\ py_max a b = a).
Proof. unfold py_max. destruct (Qltb_spec a b); auto. Qed.

Lemma py_min_cases (a b : Q) :
  (b < a /\ py_min a b = b) \/ (a <= b /\ py_min a b = a).
Proof. unfold py_min. destruct (Qltb_spec b a); auto. Qed.

Lemma py_div_ok (a b : Q) : ~ b == 0 -> py_div a b = Ok (a / b).
Proof.
  intro H. unfold py_div. destruct (Qeq_bool b 0) eqn:E; [| reflexivity].
  apply Qeq_bool_eq in E. contradiction.
Qed.

(** Destructs the boolean comparisons of the goal, leaving their meaning
    among the hypotheses. *)
Ltac by_comparison :=
  repeat match goal with
    | |- context [Qltb ?a ?b] => destruct (Qltb_spec a b)
    | |- context [Qleb ?a ?b] => destruct (Qleb_spec a b)
    end.

(** ** Guardrails *)

Section Guardrails.
Import WithdrawalPlanner.





End Guardrails.

(** ** Capital gains *)

Section CapitalGains.
Import TaxCalculator.

Lemma kenya_rate_cases (status : string) :
  dict_get KENYA_capital_gains status = Some 0.05
  \/ (dict_get KENYA_capital_gains status = None
      /\ status <> "resident"%string /\ status <> "non_resident"%string).
Proof.
  unfold KENYA_capital_gains; cbn [dict_get].
  destruct (String.eqb_spec "resident" status) as [E1 | N1]; [now left |].
  destruct (String.eqb_spec "non_resident" status) as [E2 | N2]; [now left |].
  right. repeat split; congruence.
Qed.

(** C7.  For every input of the capital-gains calculation, in every
    jurisdiction, the calculation either returns a result, and then
    tax_owed >= 0 and, whenever the gross gain is <= 0, tax_owed is 0 and
    tax_loss is the absolute value of the loss; or it raises KeyError,
    which happens only for a gain taxed under the Kenyan table with a
    taxpayer status that is neither 'resident' nor 'non_resident'. *)
Theorem capital_gains_tax_nonneg (self : TaxCalculator) (now : datetime)
    (purchase_price sale_price : Q) (quantity : Z)
    (purchase_date : datetime) (sale_date : option datetime)
    (j : option string) (status : string) :
  let gain := (sale_price - purchase_price) * inject_Z quantity in
  let outcome :=
    calculate_capital_gains_tax self now purchase_price sale_price quantity
      purchase_date sale_date j status in
  (exists r,
      outcome = Ok r
      /\ gross_gain r = gain
      /\ 0 <= tax_owed r
      /\ (gain <= 0 -> tax_owed r = 0 /\ tax_loss r = Some (Qabs gain)))
  \/ (outcome = Raise (KeyError status)
      /\ 0 < gain
      /\ resolve_jurisdiction self j = "kenya"%string
      /\ status <> "resident"%string /\ status <> "non_resident"%string).
Proof.
  intros gain outcome. subst outcome.
  unfold calculate_capital_gains_tax. fold gain.
  generalize (days_between
                match sale_date with Some d => d | None => now end
                purchase_date) as days.
  intro days. generalize gain as g. clear gain. intro g.
  destruct (Qleb_spec g 0) as [Hloss | Hgain].
  - left. eexists; split; [reflexivity |]. cbn. repeat split; lra.
  - destruct (String.eqb_spec (resolve_jurisdiction self j) "kenya") as [K | _].
    + unfold _calculate_kenya_cgt.
      destruct (kenya_rate_cases status) as [E | (E & N1 & N2)]; rewrite E.
      * left. eexists; split; [reflexivity |]. cbn.
        repeat split; try lra; intros; lra.
      * right. repeat split; assumption.
    + left.
      destruct (String.eqb (resolve_jurisdiction self j) "us").
      { unfold _calculate_us_cgt.
        destruct (US_threshold_days <=? days)%Z;
          (eexists; split; [reflexivity |]); cbn;
          repeat split; try lra; intros; lra. }
      destruct (String.eqb (resolve_jurisdiction self j) "uk").
      { unfold _calculate_uk_cgt, UK_basic_rate.
        eexists; split; [reflexivity |]. cbn.
        pose proof (py_max_lower 0 (g - UK_annual_allowance)) as M.
        repeat split; try lra; intros; lra. }
      unfold _calculate_international_cgt.
      eexists; split; [reflexivity |]. cbn.
      repeat split; try lra; intros; lra.
Qed.

(** A loss of 500 under the allowance-based regime: no tax, and a tax
    loss of 500. *)
Lemma capital_gains_tax_nonneg_witness :
  exists r,
    calculate_capital_gains_tax (init "kenya") 0%Z 100 50 10 0%Z None
      (Some "UK"%string) "resident" = Ok r
    /\ tax_owed r = 0 /\ tax_loss r = Some (Qabs ((50 - 100) * inject_Z 10)).
Proof.
  destruct (capital_gains_tax_nonneg (init "kenya") 0%Z 100 50 10 0%Z None
              (Some "UK"%string) "resident")
    as [(r & E & _ & _ & L) | (E & _)].
  - exists r. split; [exact E |]. apply L. vm_compute. discriminate.
  - vm_compute in E. discriminate E.
Defined.

End CapitalGains.

(** ** The end-to-end scenario *)

Section Scenario.
Import TaxCalculator.

(** C9.  For a single lot of 10 units bought at 150 and priced at 270,
    the per-position valuation returns pl = 1200 and pl_percent = 80; the
    capital-gains calculation on that sale (purchase 150, sale 270,
    quantity 10) under the flat-5% jurisdiction returns gross_gain = 1200,
    tax_owed = 60 and net_gain = 1140.  Both hold on rationals and, for
    the same inputs, on binary64 numbers. *)
Theorem scenario_one_lot (sym bought kind mkt note : string)
    (self : TaxCalculator) (now purchase_date : datetime)
    (sale_date : option datetime) :
  let lot :=
    {| PortfolioManager.symbol := sym;
       PortfolioManager.quantity := 10;
       PortfolioManager.purchase_price := 150;
       PortfolioManager.purchase_date := bought;
       PortfolioManager.asset_type := kind;
       PortfolioManager.market := mkt;
       PortfolioManager.notes := note |} in
  let pl := PortfolioManager.calculate_position_pl lot 270 in
  PortfolioManager.pl_amount pl == 1200
  /\ PortfolioManager.pl_percent pl == 80
  /\ (exists r,
        calculate_capital_gains_tax self now 150 270 10 purchase_date
          sale_date (Some "kenya"%string) "resident" = Ok r
        /\ gross_gain r == 1200 /\ tax_owed r == 60 /\ net_gain r == 1140
        /\ tax_rate r == 0.05)
  /\ Binary64.calculate_position_pl 10 150 270
     = (1500, 2700, 1200, 80)%float
  /\ Binary64.kenya_capital_gains 150 270 10 = Some (1200, 60, 1140)%float.
Proof.
  intros lot pl. split; [| split; [| split; [| split]]].
  - reflexivity.
  - reflexivity.
  - unfold calculate_capital_gains_tax.
    replace (Qleb ((270 - 150) * inject_Z 10) 0) with false by reflexivity.
    replace (resolve_jurisdiction self (Some "kenya"%string))
      with "kenya"%string by reflexivity.
    cbn [String.eqb Ascii.eqb Bool.eqb].
    unfold _calculate_kenya_cgt. cbn [dict_get KENYA_capital_gains String.eqb
                                      Ascii.eqb Bool.eqb].
    eexists; split; [reflexivity |]. cbn -[Qeq].
    repeat split; reflexivity.
  - vm_compute. reflexivity.
  - vm_compute. reflexivity.
Qed.

End Scenario.

(** ** Monte Carlo simulation *)

Section MonteCarlo.
Import WithdrawalPlanner Vocabulary.

Lemma insert_sorted_perm (x : Q) (l : list Q) :
  Permutation (x :: l) (insert_sorted x l).
Proof.
  induction l as [| y l IH]; cbn [insert_sorted].
  - apply Permutation_refl.
  - destruct (Qleb x y).
    + apply Permutation_refl.
    + eapply perm_trans; [apply perm_swap |]. now apply perm_skip.
Qed.

Lemma sorted_perm (l : list Q) : Permutation l (sorted l).
Proof.
  induction l as [| x l IH]; cbn [sorted].
  - apply perm_nil.
  - eapply perm_trans; [apply perm_skip, IH | apply insert_sorted_perm].
Qed.

Lemma py_index_in {A : Type} (l : list A) (i : Z) :
  (0 <= i < Z.of_nat (List.length l))%Z ->
  exists a, py_index l i = Ok a /\ In a l.
Proof.
  intros [Hlo Hhi]. unfold py_index.
  destruct (nth_error l (Z.to_nat i)) as [a |] eqn:E.
  - exists a. split; [reflexivity |]. eapply nth_error_In; eassumption.
  - apply nth_error_None in E. lia.
Qed.

(** [int(n * c)] is a valid index of a list of length [n >= 1] when
    [0 <= c < 1]. *)
Lemma scaled_index_in_range (n : Z) (c : Q) :
  (1 <= n)%Z -> 0 <= c -> c < 1 ->
  (0 <= Qfloor (inject_Z n * c) < n)%Z.
Proof.
  intros Hn Hc0 Hc1.
  assert (Hq : 1 <= inject_Z n).
  { change 1 with (inject_Z 1). rewrite <- Zle_Qle. exact Hn. }
  split.
  - change 0%Z with (Qfloor 0). apply Qfloor_resp_le. nra.
  - rewrite Zlt_Qlt.
    pose proof (Qfloor_le (inject_Z n * c)) as Hf. nra.
Qed.

Lemma simulate_trials_results (P : TrialResult -> Prop) :
  (forall surv portfolio,
      P {| survived := surv; final_value := py_max 0 portfolio |}) ->
  forall sims g sp aw years successes acc,
    let out := snd (snd (simulate_trials sims g sp aw years successes acc)) in
    List.length out = (List.length acc + sims)%nat
    /\ (Forall P acc -> Forall P out).
Proof.
  intros HP sims.
  induction sims as [| sims IH]; intros g sp aw years successes acc;
    cbn [simulate_trials].
  - cbn. split; [lia | auto].
  - destruct (simulate_years years g sp aw) as [g' [portfolio surv]].
    cbn zeta.
    specialize (IH g' sp aw years
                  (if surv then (successes + 1)%Z else successes)
                  (acc ++ [{| survived := surv;
                              final_value := py_max 0 portfolio |}])).
    cbn zeta in IH. destruct IH as [L F]. split.
    + rewrite L, length_app. cbn. lia.
    + intro Hacc. apply F. apply Forall_app. split; [exact Hacc |].
      constructor; [apply HP | constructor].
Qed.

(** C10.  For every Monte Carlo run with at least one trial, every
    per-trial final value recorded is >= 0 (one record per trial), the run
    returns a result, and its median_final_value and its 10th and 90th
    percentile outputs are non-negative, whatever the draws do to the
    portfolio. *)
Theorem monte_carlo_outputs_nonneg (g : rng)
    (starting_portfolio annual_withdrawal : Q) (years sims : Z) :
  (1 <= sims)%Z ->
  let recorded :=
    trial_results g starting_portfolio annual_withdrawal years sims in
  List.length recorded = Z.to_nat sims
  /\ Forall (fun t => 0 <= final_value t) recorded
  /\ exists r,
       snd (run_monte_carlo g starting_portfolio annual_withdrawal years sims)
       = Ok r
       /\ 0 <= median_final_value r
       /\ 0 <= worst_case_10th_percentile r
       /\ 0 <= best_case_90th_percentile r.
Proof.
  intros Hsims recorded.
  pose proof (simulate_trials_results (fun t => 0 <= final_value t)
                (fun _ portfolio => py_max_lower 0 portfolio)
                (Z.to_nat sims) g starting_portfolio annual_withdrawal
                (Z.to_nat years) 0%Z []) as H.
  cbn zeta in H. destruct H as [Hlen Hall].
  specialize (Hall (Forall_nil _)). cbn [List.length Nat.add] in Hlen.
  fold (trial_results g starting_portfolio annual_withdrawal years sims)
    in Hlen, Hall.
  fold recorded in Hlen, Hall.
  split; [exact Hlen |]. split; [exact Hall |].
  unfold run_monte_carlo.
  assert (Hrec : recorded
                 = snd (snd (simulate_trials (Z.to_nat sims) g
                               starting_portfolio annual_withdrawal
                               (Z.to_nat years) 0%Z []))) by reflexivity.
  destruct (simulate_trials (Z.to_nat sims) g starting_portfolio
              annual_withdrawal (Z.to_nat years) 0%Z [])
    as [g' [successes all_results]].
  cbn [snd] in Hrec |- *. subst all_results.
  unfold summarize.
  rewrite py_div_ok.
  2:{ intro E. unfold Qeq in E. cbn in E. lia. }
  cbn [bind].
  set (final_values := sorted (map final_value recorded)).
  assert (Hperm : Permutation (map final_value recorded) final_values)
    by apply sorted_perm.
  assert (Hn : Z.of_nat (List.length final_values) = sims).
  { rewrite <- (Permutation_length Hperm), length_map, Hlen. lia. }
  assert (Hpos : Forall (fun v => 0 <= v) final_values).
  { eapply Permutation_Forall; [exact Hperm |].
    apply Forall_map. exact Hall. }
  rewrite Forall_forall in Hpos.
  rewrite Hn.
  destruct (py_index_in final_values (sims / 2)) as (m & Em & Im).
  { rewrite Hn. split; [apply Z.div_pos; lia | apply Z.div_lt_upper_bound; lia]. }
  destruct (py_index_in final_values (Qfloor (inject_Z sims * 0.1)))
    as (lo & Elo & Ilo).
  { rewrite Hn. apply scaled_index_in_range; [lia | lra | lra]. }
  destruct (py_index_in final_values (Qfloor (inject_Z sims * 0.9)))
    as (hi & Ehi & Ihi).
  { rewrite Hn. apply scaled_index_in_range; [lia | lra | lra]. }
  rewrite Em, Elo, Ehi. cbn [bind].
  eexists. split; [reflexivity |]. cbn.
  repeat split; apply Hpos; assumption.
Qed.

Lemma monte_carlo_outputs_nonneg_witness :
  exists r,
    snd (run_monte_carlo up_then_down 100 100 3 2) = Ok r
    /\ 0 <= median_final_value r
    /\ 0 <= worst_case_10th_percentile r
    /\ 0 <= best_case_90th_percentile r.
Proof.
  apply (monte_carlo_outputs_nonneg up_then_down 100 100 3 2). lia.
Defined.

(** One trial draws at most [years] variates and looks at nothing else of
    the generator. *)
Lemma simulate_years_same_draws (years : nat) :
  forall g1 g2 portfolio withdrawal,
    same_draws years g1 g2 ->
    snd (simulate_years years g1 portfolio withdrawal)
    = snd (simulate_years years g2 portfolio withdrawal)
    /\ exists k, (k <= years)%nat
         /\ fst (simulate_years years g1 portfolio withdrawal)
            = {| variates := variates g1; cursor := cursor g1 + k |}
         /\ fst (simulate_years years g2 portfolio withdrawal)
            = {| variates := variates g2; cursor := cursor g2 + k |}.
Proof.
  induction years as [| years IH]; intros g1 g2 portfolio withdrawal Hsame;
    cbn [simulate_years].
  - split; [reflexivity |]. exists 0%nat.
    rewrite !Nat.add_0_r. destruct g1, g2. cbn. auto.
  - unfold gauss.
    pose proof (Hsame 0%nat (Nat.lt_0_succ _)) as H0.
    rewrite !Nat.add_0_r in H0. rewrite <- H0.
    set (p' := portfolio * (1 + (0.07 + variates g1 (cursor g1) * 0.15))
               - withdrawal).
    destruct (Qleb p' 0).
    + split; [reflexivity |]. exists 1%nat.
      rewrite !Nat.add_1_r. cbn. repeat split. lia.
    + destruct (IH {| variates := variates g1; cursor := S (cursor g1) |}
                   {| variates := variates g2; cursor := S (cursor g2) |}
                   p' (withdrawal * 1.03)) as (E & k & Hk & E1 & E2).
      { intros i Hi. cbn. rewrite <- !Nat.add_succ_r. apply Hsame. lia. }
      split; [exact E |]. exists (S k).
      rewrite E1, E2. cbn. rewrite !Nat.add_succ_r. repeat split. lia.
Qed.

Lemma simulate_trials_same_draws (years sims : nat) :
  forall g1 g2 sp aw successes acc,
    same_draws (sims * years) g1 g2 ->
    snd (simulate_trials sims g1 sp aw years successes acc)
    = snd (simulate_trials sims g2 sp aw years successes acc).
Proof.
  induction sims as [| sims IH]; intros g1 g2 sp aw successes acc Hsame;
    cbn [simulate_trials].
  - reflexivity.
  - destruct (simulate_years_same_draws years g1 g2 sp aw)
      as (E & k & Hk & E1 & E2).
    { intros i Hi. apply Hsame. cbn. lia. }
    destruct (simulate_years years g1 sp aw) as [g1' [p1 s1]].
    destruct (simulate_years years g2 sp aw) as [g2' [p2 s2]].
    cbn [fst snd] in E, E1, E2. injection E as -> ->. subst g1' g2'.
    apply IH. intros i Hi. cbn [variates cursor].
    rewrite <- !Nat.add_assoc. apply Hsame. cbn. lia.
Qed.

(** C1 (as the code has it).  The simulation takes no seed and never
    seeds the generator: its outputs are determined by its parameters and
    by the variates the process-wide generator yields during the run.  Two
    runs with the same parameters whose generators yield the same next
    simulations * years variates return identical results, success_rate,
    median and 10th/90th percentiles included. *)
Theorem monte_carlo_same_draws (g1 g2 : rng)
    (starting_portfolio annual_withdrawal : Q) (years sims : Z) :
  same_draws (Z.to_nat sims * Z.to_nat years) g1 g2 ->
  snd (run_monte_carlo g1 starting_portfolio annual_withdrawal years sims)
  = snd (run_monte_carlo g2 starting_portfolio annual_withdrawal years sims).
Proof.
  intro Hsame. unfold run_monte_carlo.
  pose proof (simulate_trials_same_draws (Z.to_nat years) (Z.to_nat sims)
                g1 g2 starting_portfolio annual_withdrawal 0%Z [] Hsame) as E.
  destruct (simulate_trials (Z.to_nat sims) g1 starting_portfolio
              annual_withdrawal (Z.to_nat years) 0%Z [])
    as [g1' [s1 r1]].
  destruct (simulate_trials (Z.to_nat sims) g2 starting_portfolio
              annual_withdrawal (Z.to_nat years) 0%Z [])
    as [g2' [s2 r2]].
  cbn [snd] in E |- *. injection E as -> ->. reflexivity.
Qed.

Lemma monte_carlo_same_draws_witness :
  snd (run_monte_carlo flat 500000 20000 2 1)
  = snd (run_monte_carlo flat_then_up 500000 20000 2 1).
Proof.
  apply monte_carlo_same_draws.
  intros i Hi. change (i < 2)%nat in Hi.
  destruct i as [| [| i]]; [reflexivity | reflexivity | lia].
Defined.

(** C1, counterexample.  Two runs with the same parameters need not
    agree: the generator is left where the run stopped drawing, so a
    second run in the same process continues from there.  With one trial
    of one year from 100 and a withdrawal of 100, a first variate 1
    leaves 22 (success rate 100) and the next variate -1 leaves -8
    (success rate 0, final value clamped to 0). *)
Lemma monte_carlo_rerun_differs :
  let first := run_monte_carlo up_then_down 100 100 1 1 in
  let second := run_monte_carlo (fst first) 100 100 1 1 in
  exists r1 r2,
    snd first = Ok r1 /\ snd second = Ok r2
    /\ success_rate r1 == 100 /\ success_rate r2 == 0
    /\ median_final_value r1 == 22 /\ median_final_value r2 == 0
    /\ ~ success_rate r1 == success_rate r2
    /\ ~ median_final_value r1 == median_final_value r2.
Proof.
  cbv zeta. eexists. eexists.
  split; [vm_compute; reflexivity |].
  split; [vm_compute; reflexivity |].
  cbn [success_rate median_final_value].
  repeat split; try reflexivity; discriminate.
Qed.

End MonteCarlo.

(** ** Concentration alert *)

Section Concentration.
Import PortfolioContext Vocabulary.

Lemma max_by_percent_in (l : list AllocationEntry) :
  forall best, In (max_by_percent best l) (best :: l).
Proof.
  induction l as [| a l IH]; intro best; cbn [max_by_percent].
  - now left.
  - destruct (IH (if Qltb (percent best) (percent a) then a else best))
      as [E | I].
    + rewrite <- E. destruct (Qltb (percent best) (percent a)); cbn; auto.
    + right. now right.
Qed.

Lemma max_by_percent_ge (l : list AllocationEntry) :
  forall best a,
    In a (best :: l) -> percent a <= percent (max_by_percent best l).
Proof.
  induction l as [| b l IH]; intros best a Ha; cbn [max_by_percent].
  - destruct Ha as [<- | []]. lra.
  - set (best' := if Qltb (percent best) (percent b) then b else best).
    assert (Hbest : percent best <= percent best'
                    /\ percent b <= percent best').
    { subst best'. destruct (Qltb_spec (percent best) (percent b)); lra. }
    destruct Ha as [<- | [<- | Ha]].
    + pose proof (IH best' best' (or_introl eq_refl)). lra.
    + pose proof (IH best' best' (or_introl eq_refl)). lra.
    + apply IH. now right.
Qed.

(** C5.  For every allocation with positive total value: when a non-cash
    holding has a percent strictly above 60, an alert is produced for the
    largest non-cash holding (whose percent is at least that one), with
    target_percent = 60 and suggested_sell_amount = total_value *
    (current_percent - 60) / 100; every alert produced has a
    current_percent strictly above 60; and when no non-cash holding is
    above 60 (the largest being at exactly 60 included) there is no
    alert. *)
Theorem concentration_alert_threshold (allocation : list AllocationEntry)
    (total_value : Q) :
  0 < total_value ->
  (forall a, In a allocation -> is_cash a = false -> 60 < percent a ->
     exists largest,
       In largest allocation /\ is_cash largest = false
       /\ percent a <= percent largest
       /\ _detect_concentration allocation total_value
          = Some {| alert_symbol := symbol largest;
                    current_percent := percent largest;
                    target_percent := 60;
                    suggested_sell_amount :=
                      total_value * ((percent largest - 60) / 100) |})
  /\ (forall alert,
        _detect_concentration allocation total_value = Some alert ->
        target_percent alert = 60
        /\ 60 < current_percent alert
        /\ suggested_sell_amount alert
           == total_value * (current_percent alert - 60) / 100)
  /\ ((forall a, In a allocation -> is_cash a = false -> percent a <= 60) ->
      _detect_concentration allocation total_value = None).
Proof.
  intro Hpos. unfold _detect_concentration.
  rewrite (Qleb_false _ _ Hpos). cbn [orb].
  destruct allocation as [| a0 allocation'].
  { cbn. split; [| split]; [intros a [] | discriminate | reflexivity]. }
  cbn [is_empty]. set (allocation := a0 :: allocation').
  set (not_cash := fun a => negb (is_cash a)).
  assert (Hfilter : forall a,
             In a (filter not_cash allocation)
             <-> In a allocation /\ is_cash a = false).
  { intro a. rewrite filter_In. unfold not_cash.
    destruct (is_cash a); cbn; intuition congruence. }
  destruct (filter not_cash allocation) as [| first rest] eqn:F.
  - split; [| split].
    + intros a Ha Hc _. exfalso. apply (proj2 (Hfilter a)); auto.
    + intros alert E. discriminate E.
    + reflexivity.
  - pose proof (max_by_percent_in rest first) as Hin.
    pose proof (max_by_percent_ge rest first) as Hge.
    set (largest := max_by_percent first rest) in *.
    apply Hfilter in Hin. destruct Hin as [Hin Hnc].
    split; [| split].
    + intros a Ha Hc Ha60.
      assert (Hle : percent a <= percent largest)
        by (apply Hge, Hfilter; auto).
      exists largest. repeat split; try assumption.
      rewrite Qleb_false by lra. reflexivity.
    + intros alert E.
      destruct (Qleb_spec (percent largest) 60) as [H60 | H60];
        [discriminate E |].
      injection E as <-. cbn. repeat split; [assumption | field].
    + intro Hall. rewrite Qleb_true; [reflexivity |].
      apply Hall; assumption.
Qed.

(** A holding at 61% next to one at 39%, as built from the holdings. *)
Lemma concentration_alert_threshold_witness :
  exists alert,
    _detect_concentration two_assets_61_39 100 = Some alert
    /\ target_percent alert = 60
    /\ 60 < current_percent alert.
Proof.
  destruct (concentration_alert_threshold two_assets_61_39 100 eq_refl)
    as (Hsome & Halert & _).
  destruct (Hsome (nth 0 two_assets_61_39 cash_only_entry))
    as (largest & _ & _ & _ & E);
    [now left | reflexivity | reflexivity |].
  eexists. split; [exact E |].
  destruct (Halert _ E) as (T & C & _). split; assumption.
Defined.

(** The same portfolio at exactly 60% / 40% raises no alert. *)
Example no_alert_at_exactly_60 :
  _detect_concentration two_assets_60_40 100 = None.
Proof. reflexivity. Qed.

End Concentration.

(** ** Health score *)

Section Health.
Import PortfolioManager.

Lemma clamp_0_25 (x : Q) : 0 <= py_max 0 (py_min 25 x) <= 25.
Proof.
  destruct (py_min_cases 25 x) as [[H E] | [H E]]; rewrite E;
    destruct (py_max_cases 0 x) as [[H' E'] | [H' E']];
    destruct (py_max_cases 0 25) as [[H'' E''] | [H'' E'']];
    try rewrite E'; try rewrite E''; lra.
Qed.

(** C6.  For every portfolio (with whatever prices the quote client
    answers), every year and every risk score, the health scorer returns
    four sub-scores, each in [0, 25]; the total is their sum and lies in
    [0, 100]; the rating is Excellent when the total is >= 85, Good when
    it is >= 70 (and below 85), Fair when it is >= 55 (and below 70), and
    Needs Attention otherwise. *)
Theorem health_score_bounds (pm : Manager) (year : string)
    (user_risk_score : Q) :
  let h := calculate_portfolio_health_score pm year user_risk_score in
  let s := scores h in
  0 <= diversification s <= 25
  /\ 0 <= risk_alignment s <= 25
  /\ 0 <= performance s <= 25
  /\ 0 <= sustainability s <= 25
  /\ total_score h
     == diversification s + risk_alignment s + performance s
        + sustainability s
  /\ 0 <= total_score h <= 100
  /\ (85 <= total_score h -> health_rating h = Excellent)
  /\ (70 <= total_score h < 85 -> health_rating h = Good)
  /\ (55 <= total_score h < 70 -> health_rating h = Fair)
  /\ (total_score h < 55 -> health_rating h = Needs_Attention).
Proof.
  intros h s. subst s h. unfold calculate_portfolio_health_score.
  cbn [scores total_score health_rating diversification risk_alignment
       performance sustainability py_sum fold_left].
  match goal with
  | |- context [py_max 0 (py_min 25 ?x)] =>
      pose proof (clamp_0_25 x) as Hd;
      generalize dependent (py_max 0 (py_min 25 x))
  end.
  intros d Hd.
  generalize (Qabs (_estimate_portfolio_risk pm - user_risk_score)) as rd.
  generalize (total_pl_percent (calculate_total_portfolio pm)) as plp.
  match goal with
  | |- context [Qltb ?y 0.04] => generalize y as rate
  end.
  intros rate plp rd.
  set (r := if Qltb rd 0.1 then 25
            else if Qltb rd 0.2 then 20 else if Qltb rd 0.3 then 15 else 10).
  set (p := if Qltb 20 plp then 25
            else if Qltb 10 plp then 20
            else if Qltb 5 plp then 15 else if Qltb 0 plp then 10 else 5).
  set (w := if Qltb rate 0.04 then 25
            else if Qltb rate 0.05 then 20
            else if Qltb rate 0.06 then 15 else 10).
  assert (Hr : 10 <= r <= 25) by (subst r; by_comparison; lra).
  assert (Hp : 5 <= p <= 25) by (subst p; by_comparison; lra).
  assert (Hw : 10 <= w <= 25) by (subst w; by_comparison; lra).
  clearbody r p w.
  by_comparison; repeat split; try lra; intros; try reflexivity; lra.
Qed.

End Health.

(** ** Ledger endpoints *)

Section LedgerEndpoints.
Import Server Vocabulary.




(** C4.  Selling more than the held total_quantity fails with the
    insufficient-quantity error, withdrawing more than the cash balance
    fails with the insufficient-cash error, and in both cases the ledger
    (positions, cash balance and all the rest) is returned unchanged. *)
Theorem rejected_sell_and_withdrawal_keep_ledger (l : Ledger)
    (today : string) :
  (forall (data : SellRequest) (pos : PositionRow),
      find_position l (upper (sell_symbol data)) = Some pos ->
      total_quantity pos < sell_quantity data ->
      sell_position l today data
      = (l, inl {| status_code := 400;
                   http_detail :=
                     cannot_sell (sell_quantity data) (total_quantity pos)
                       (upper (sell_symbol data)) |}))
  /\ (forall data : WithdrawRequest,
        cash_balance l < req_amount data ->
        add_withdrawal l today data
        = (l, inl {| status_code := 500;
                     http_detail :=
                       insufficient_cash_to_withdraw (cash_balance l)
                         (req_amount data) |})).
Proof.
  split.
  - intros data pos Hfind Hmore. unfold sell_position.
    rewrite Hfind, (Qltb_true _ _ Hmore). reflexivity.
  - intros data Hmore. unfold add_withdrawal.
    rewrite (Qltb_true _ _ Hmore). reflexivity.
Qed.

(** Selling 11 of 10 units, and withdrawing 60 out of 50. *)
Lemma rejected_sell_and_withdrawal_keep_ledger_witness :
  fst (sell_position aapl_ledger "2024-06-01" (sell_aapl 11 270))
  = aapl_ledger
  /\ fst (add_withdrawal aapl_ledger "2024-06-01" (withdraw_cash 60))
     = aapl_ledger.
Proof.
  destruct (rejected_sell_and_withdrawal_keep_ledger aapl_ledger "2024-06-01")
    as [S W].
  split.
  - rewrite (S (sell_aapl 11 270) aapl_row); reflexivity.
  - rewrite (W (withdraw_cash 60)); reflexivity.
Defined.

(** C2 (what the code does).  Neither path that adds a lot validates the
    sign of a quantity or of a price.  [PortfolioManager.add_position]
    appends the lot whatever they are; the endpoint only compares the
    cost with the cash balance, so on an empty ledger a request for -1
    unit at 10 succeeds: a row with total_quantity = -1 is inserted and
    the cash balance grows by 10.  The sibling endpoint [deposit_cash]
    does refuse a non-positive amount and leaves the ledger as it was. *)
Theorem add_position_accepts_nonpositive :
  (forall pm today sym qty price_paid bought kind mkt note,
      let out :=
        PortfolioManager.add_position pm today sym qty price_paid bought
          kind mkt note in
      PortfolioManager.success (snd out) = true
      /\ PortfolioManager.quantity (PortfolioManager.added (snd out)) = qty
      /\ PortfolioManager.purchase_price (PortfolioManager.added (snd out))
         = price_paid
      /\ PortfolioManager.positions (PortfolioManager.portfolio (fst out))
         = PortfolioManager.positions (PortfolioManager.portfolio pm)
           ++ [PortfolioManager.added (snd out)])
  /\ exists l' response row,
       add_position empty_ledger "2024-06-01" negative_lot
       = (l', inr response)
       /\ positions l' = [row]
       /\ symbol row = "AAPL"%string
       /\ total_quantity row = add_quantity negative_lot
       /\ total_quantity row < 0
       /\ cash_balance l' == 10
       /\ forall l amount,
            amount <= 0 ->
            deposit_cash l amount
            = (l, inl {| status_code := 400;
                         http_detail := deposit_amount_must_be_positive |}).
Proof.
  split.
  - intros. subst out. cbn. repeat split; reflexivity.
  - eexists; eexists; eexists.
    split; [vm_compute; reflexivity |].
    cbn. repeat split; try reflexivity.
    intros l amount Hle. unfold deposit_cash.
    rewrite (Qleb_true _ _ Hle). reflexivity.
Qed.

End LedgerEndpoints.

(** ** The sources' own test inputs *)

Section Checks.
Import Vocabulary.

(** The Kenyan, the short-term US and the long-term US sale of
    tax_calculator.py: 10 units bought at 150 and sold at 200. *)
Example kenya_sale_after_200_days :
  exists r,
    TaxCalculator.calculate_capital_gains_tax (TaxCalculator.init "kenya")
      (days 200) 150 200 10 (days 0) None (Some "kenya"%string) "resident"
    = Ok r
    /\ TaxCalculator.gross_gain r == 500
    /\ TaxCalculator.tax_owed r == 25
    /\ TaxCalculator.net_gain r == 475
    /\ TaxCalculator.holding_period_days r = 200%Z
    /\ TaxCalculator.recommendation r
       = Some TaxCalculator.kenya_flat_regardless_of_holding.
Proof.
  eexists. split; [vm_compute; reflexivity |]. cbn.
  repeat split; reflexivity.
Qed.

Example us_sale_after_180_days :
  exists r,
    TaxCalculator.calculate_capital_gains_tax (TaxCalculator.init "kenya")
      (days 180) 150 200 10 (days 0) None (Some "US"%string) "resident"
    = Ok r
    /\ TaxCalculator.tax_owed r == 110
    /\ TaxCalculator.recommendation r
       = Some (TaxCalculator.us_hold_more_days 185).
Proof.
  eexists. split; [vm_compute; reflexivity |]. cbn.
  repeat split; reflexivity.
Qed.

Example us_sale_after_400_days :
  exists r,
    TaxCalculator.calculate_capital_gains_tax (TaxCalculator.init "kenya")
      (days 400) 150 200 10 (days 0) None (Some "us"%string) "resident"
    = Ok r
    /\ TaxCalculator.tax_owed r == 75
    /\ TaxCalculator.tax_type r = Some "long_term"%string.
Proof.
  eexists. split; [vm_compute; reflexivity |]. cbn.
  repeat split; reflexivity.
Qed.

(** A gain of 500 stays within the UK allowance; a gain of 5000 is taxed
    on the 2000 above it. *)
Example uk_sale_within_and_above_allowance :
  (exists r,
      TaxCalculator.calculate_capital_gains_tax (TaxCalculator.init "uk")
        (days 30) 150 200 10 (days 0) None None "resident" = Ok r
      /\ TaxCalculator.tax_owed r == 0
      /\ TaxCalculator.recommendation r
         = Some (TaxCalculator.uk_within_allowance 3000))
  /\ (exists r,
        TaxCalculator.calculate_capital_gains_tax (TaxCalculator.init "uk")
          (days 30) 150 200 100 (days 0) None None "resident" = Ok r
        /\ TaxCalculator.tax_owed r == 200
        /\ TaxCalculator.recommendation r = None).
Proof.
  split; (eexists; split; [vm_compute; reflexivity |]); cbn;
    repeat split; reflexivity.
Qed.

(** A status outside the Kenyan table raises [KeyError] on a gain and is
    not looked at on a loss. *)
Example kenya_sale_with_unknown_status :
  TaxCalculator.calculate_capital_gains_tax (TaxCalculator.init "kenya")
    (days 30) 150 200 10 (days 0) None None "expat"
  = Raise (KeyError "expat")
  /\ exists r,
       TaxCalculator.calculate_capital_gains_tax (TaxCalculator.init "kenya")
         (days 30) 200 150 10 (days 0) None None "expat" = Ok r
       /\ TaxCalculator.tax_loss r = Some (Qabs ((150 - 200) * inject_Z 10)).
Proof.
  split; [reflexivity |].
  eexists. split; [vm_compute; reflexivity |]. reflexivity.
Qed.

(** The manager's test portfolio is worth 7250; its health score is 60:
    nothing for diversification (two holdings, both far above 15%), 20
    for risk alignment against a risk score of 0.65, 15 for performance
    and 25 for sustainability. *)
Example health_of_test_portfolio :
  let h :=
    PortfolioManager.calculate_portfolio_health_score test_manager "2024"
      0.65 in
  PortfolioManager.total_value
    (PortfolioManager.calculate_total_portfolio test_manager) == 7250
  /\ PortfolioManager.total_score h == 60
  /\ PortfolioManager.health_rating h = PortfolioManager.Fair
  /\ PortfolioManager.diversification (PortfolioManager.scores h) == 0
  /\ PortfolioManager.risk_alignment (PortfolioManager.scores h) == 20
  /\ PortfolioManager.performance (PortfolioManager.scores h) == 15
  /\ PortfolioManager.sustainability (PortfolioManager.scores h) == 25
  /\ PortfolioManager.insights h = [PortfolioManager.concentration_risk].
Proof.
  cbv zeta. repeat split; vm_compute; reflexivity.
Qed.

(** No trial at all divides by zero; a negative count finds the list of
    final values empty. *)
Example monte_carlo_without_trials :
  snd (WithdrawalPlanner.run_monte_carlo flat 500000 20000 30 0)
  = Raise ZeroDivisionError
  /\ snd (WithdrawalPlanner.run_monte_carlo flat 500000 20000 30 (-1))
     = Raise IndexError.
Proof. split; reflexivity. Qed.

(** With every variate at 0 each year returns 7%: over ten years, all
    ten trials of the planner's own example (20000 a year out of 500000)
    survive. *)
Example monte_carlo_flat_returns :
  exists r,
    snd (WithdrawalPlanner.run_monte_carlo flat 500000 20000 10 10) = Ok r
    /\ WithdrawalPlanner.success_rate r == 100
    /\ WithdrawalPlanner.mc_recommendation r
       = WithdrawalPlanner.excellent_sustainability
    /\ WithdrawalPlanner.median_final_value r
       == WithdrawalPlanner.best_case_90th_percentile r.
Proof.
  eexists. split; [vm_compute; reflexivity |]. cbn -[Qeq].
  repeat split; reflexivity.
Qed.

(** Buying into an existing position recomputes its totals from the
    lots; a purchase above the cash balance is refused. *)
Example buy_more_of_a_held_position :
  let data :=
    {| Server.add_symbol := "aapl";
       Server.add_quantity := 5;
       Server.add_purchase_price := 9;
       Server.add_purchase_date := None;
       Server.add_market := None;
       Server.add_asset_type := None;
       Server.add_notes := "" |} in
  let out := Server.add_position aapl_ledger "2024-06-01" data in
  Server.cash_balance (fst out) == 5
  /\ map Server.total_quantity (Server.positions (fst out)) = [15]
  /\ map Server.total_invested (Server.positions (fst out)) = [1545]
  /\ fst (Server.add_position empty_ledger "2024-06-01" data) = empty_ledger.
Proof.
  cbv zeta. repeat split; vm_compute; reflexivity.
Qed.

End Checks.

(** * Further properties of the sources *)

(** ** Strings, dictionaries and sums *)

Lemma upper_ascii_idempotent (c : ascii) :
  upper_ascii (upper_ascii c) = upper_ascii c.
Proof.
  destruct c as [b0 b1 b2 b3 b4 b5 b6 b7];
    destruct b0, b1, b2, b3, b4, b5, b6, b7; reflexivity.
Qed.

Lemma upper_idempotent (s : string) : upper (upper s) = upper s.
Proof.
  induction s as [| c s IH]; cbn [upper]; [reflexivity |].
  now rewrite upper_ascii_idempotent, IH.
Qed.

Lemma dict_get_set_same {V : Type} (d : list (string * V)) (k : string)
    (v : V) :
  dict_get (PortfolioManager.dict_set d k v) k = Some v.
Proof.
  induction d as [| [k' v'] d IH]; cbn [PortfolioManager.dict_set dict_get].
  - now rewrite String.eqb_refl.
  - destruct (String.eqb k' k) eqn:E; cbn [dict_get]; rewrite E;
      [reflexivity | exact IH].
Qed.

Lemma dict_get_set_other {V : Type} (d : list (string * V)) (k k' : string)
    (v : V) :
  k' <> k ->
  dict_get (PortfolioManager.dict_set d k v) k' = dict_get d k'.
Proof.
  intro Hne.
  induction d as [| [k0 v0] d IH]; cbn [PortfolioManager.dict_set dict_get].
  - destruct (String.eqb_spec k k'); [congruence | reflexivity].
  - destruct (String.eqb_spec k0 k) as [-> | N]; cbn [dict_get].
    + destruct (String.eqb_spec k k'); [congruence | reflexivity].
    + destruct (String.eqb k0 k'); [reflexivity | exact IH].
Qed.



Lemma py_sum_shift (l : list Q) :
  forall a, fold_left Qplus l a == a + py_sum l.
Proof.
  unfold py_sum.
  induction l as [| x l IH]; intro a; cbn [fold_left].
  - lra.
  - rewrite (IH (a + x)), (IH (0 + x)). lra.
Qed.

Lemma py_sum_cons (x : Q) (l : list Q) : py_sum (x :: l) == x + py_sum l.
Proof.
  unfold py_sum at 1. cbn [fold_left]. rewrite py_sum_shift. lra.
Qed.

Lemma py_sum_app (l1 l2 : list Q) :
  py_sum (l1 ++ l2) == py_sum l1 + py_sum l2.
Proof.
  induction l1 as [| x l1 IH]; cbn [app].
  - change (py_sum []) with 0. lra.
  - rewrite !py_sum_cons, IH. lra.
Qed.



(** ** Withdrawal plans *)

Section WithdrawalPlans.
Import WithdrawalPlanner.


Lemma project_years_rows (remaining : nat) :
  forall this_year portfolio withdrawal expected_return inflation,
    let rows :=
      project_years remaining this_year portfolio withdrawal
        expected_return inflation in
    (List.length rows <= remaining)%nat
    /\ (forall i row,
           nth_error rows i = Some row ->
           year row = (this_year + Z.of_nat i)%Z
           /\ depleted row = Qleb (portfolio_value row) 0
           /\ (S i < List.length rows -> depleted row = false)%nat)
    /\ (find depleted rows = None -> List.length rows = remaining)
    /\ (forall row,
           find depleted rows = Some row ->
           nth_error rows (List.length rows - 1) = Some row).
Proof.
  induction remaining as [| remaining IH];
    intros this_year portfolio withdrawal expected_return inflation;
    cbn [project_years].
  - cbn. repeat split; try lia; try discriminate;
      destruct i; discriminate.
  - set (p' := portfolio * (1 + expected_return) - withdrawal).
    set (w' := withdrawal * (1 + inflation)).
    destruct (Qleb p' 0) eqn:D.
    + cbn. repeat split; try lia.
      all: try (destruct i as [| i]; [| destruct i; discriminate];
                injection H as <-; cbn; first [lia | symmetry; exact D]).
      all: try (intros row E; exact E).
      all: discriminate.
    + specialize (IH (this_year + 1)%Z p' w' expected_return inflation).
      cbn zeta in IH. destruct IH as (L & N & F & Hlast).
      set (rest := project_years remaining (this_year + 1) p' w'
                     expected_return inflation) in *.
      cbn [List.length find depleted].
      repeat split.
      * lia.
      * destruct i as [| i]; cbn in H.
        -- injection H as <-. cbn. lia.
        -- destruct (N i row H) as (Y & _ & _). lia.
      * destruct i as [| i]; cbn in H.
        -- injection H as <-. cbn. symmetry. exact D.
        -- apply (N i row H).
      * destruct i as [| i]; cbn in H.
        -- injection H as <-. reflexivity.
        -- intro Hlt. apply (N i row H). lia.
      * intro E. rewrite (F E). reflexivity.
      * intros row E. specialize (Hlast row E).
        destruct rest as [| r0 rest']; [discriminate E |].
        cbn [List.length] in *.
        replace (S (S (List.length rest')) - 1)%nat
          with (S (S (List.length rest') - 1)) by lia.
        cbn [nth_error]. exact Hlast.
Qed.

(** X2.  The projection stops at the first year that leaves nothing: it
    has at most [years] rows, numbered from 1; only the last row can be
    depleted (every earlier row holds a positive value); a successful
    projection has no depletion year, covers all the years and stays
    positive throughout; a failed one reports its last row as the
    depletion year, with a final value at or below zero. *)
Theorem projection_stops_at_depletion
    (starting_portfolio annual_withdrawal : Q) (years : Z)
    (expected_return inflation : Q) :
  let p :=
    run_sustainability_projection starting_portfolio annual_withdrawal years
      expected_return inflation in
  let rows := projections p in
  (List.length rows <= Z.to_nat years)%nat
  /\ (forall i row,
         nth_error rows i = Some row ->
         year row = Z.of_nat (S i)
         /\ (depleted row = true <-> portfolio_value row <= 0)
         /\ ((S i < List.length rows)%nat -> 0 < portfolio_value row))
  /\ (success p = true ->
      depletion_year p = None
      /\ List.length rows = Z.to_nat years
      /\ forall row, In row rows -> 0 < portfolio_value row)
  /\ (success p = false ->
      depletion_year p = Some (Z.of_nat (List.length rows))
      /\ projection_final_value p <= 0).
Proof.
  intros p rows. subst rows p. unfold run_sustainability_projection.
  cbn [projections success depletion_year projection_final_value].
  pose proof (project_years_rows (Z.to_nat years) 1 starting_portfolio
                annual_withdrawal expected_return inflation) as H.
  cbn zeta in H. destruct H as (L & N & F & Hlast).
  set (rows := project_years (Z.to_nat years) 1 starting_portfolio
                 annual_withdrawal expected_return inflation) in *.
  assert (Hdep : forall row, depleted row = Qleb (portfolio_value row) 0 ->
                   (depleted row = true <-> portfolio_value row <= 0)
                   /\ (depleted row = false -> 0 < portfolio_value row)).
  { intros row E. rewrite E.
    destruct (Qleb_spec (portfolio_value row) 0); split;
      try (split; intro); try intro; try lra; congruence. }
  split; [exact L |]. split.
  { intros i row Hi. destruct (N i row Hi) as (Y & D & B).
    split; [lia |]. split; [apply Hdep; exact D |].
    intro Hlt. apply Hdep; [exact D | apply B; exact Hlt]. }
  destruct (find depleted rows) as [row |] eqn:E; cbn [option_map].
  - pose proof (Hlast row eq_refl) as Hn.
    destruct (N _ _ Hn) as (Y & D & _).
    apply find_some in E. destruct E as [Hin Hd].
    assert (Hlen : (1 <= List.length rows)%nat).
    { destruct rows; [contradiction | cbn; lia]. }
    assert (Hyear : year row = Z.of_nat (List.length rows)) by lia.
    split.
    + intro S. apply Z.ltb_lt in S. lia.
    + intros _. split; [now rewrite Hyear |].
      apply nth_error_split in Hn. destruct Hn as (l1 & l2 & El & Ll).
      assert (l2 = []).
      { apply (f_equal (@List.length _)) in El.
        rewrite length_app in El. cbn in El.
        destruct l2; [reflexivity | cbn in El; lia]. }
      subst l2. rewrite El, rev_unit.
      apply Hdep; assumption.
  - split.
    + intros _. split; [reflexivity |]. split; [apply F; reflexivity |].
      intros row Hin. apply In_nth_error in Hin. destruct Hin as [i Hi].
      destruct (N i row Hi) as (_ & D & _).
      apply Hdep; [exact D |].
      eapply find_none in E; [exact E | eapply nth_error_In; exact Hi].
    + discriminate.
Qed.


(** X4.  Where the crash leaves a positive value, the reduced withdrawal
    that an unsustainable or risky scenario recommends (4% of the
    crashed value) is rated sustainable in the same scenario. *)
Theorem stress_test_recommendation_is_sustainable
    (portfolio_value annual_withdrawal : Q) (name : string) (crash : Q) :
  0 < portfolio_value * (1 + crash) ->
  forall reduced,
    (recommended_action
       (stress_scenario portfolio_value annual_withdrawal (name, crash))
     = reduce_or_pause reduced
     \/ recommended_action
          (stress_scenario portfolio_value annual_withdrawal (name, crash))
        = consider_reducing reduced) ->
    map scenario_status
      (scenarios (stress_test portfolio_value reduced (Some [(name, crash)])))
    = [Sustainable].
Proof.
  intros Hpos reduced Hrec.
  assert (E : reduced = portfolio_value * (1 + crash) * 0.04).
  { unfold stress_scenario in Hrec. revert Hrec.
    by_comparison; cbn; intros [E | E]; congruence. }
  subst reduced. cbn. unfold stress_scenario.
  set (crashed := portfolio_value * (1 + crash)) in *.
  rewrite (Qltb_true _ _ Hpos).
  assert (R : crashed * 0.04 / crashed == 0.04) by (field; lra).
  assert (F6 : Qltb 0.06 (crashed * 0.04 / crashed) = false)
    by (apply Qltb_false; lra).
  assert (F5 : Qltb 0.05 (crashed * 0.04 / crashed) = false)
    by (apply Qltb_false; lra).
  rewrite F6, F5. reflexivity.
Qed.

Lemma stress_test_recommendation_is_sustainable_witness :
  map scenario_status
    (scenarios (stress_test 500000 (500000 * (1 + -0.50) * 0.04)
                  (Some [("Extreme Crisis"%string, -0.50)])))
  = [Sustainable].
Proof.
  apply (stress_test_recommendation_is_sustainable 500000 40000
           "Extreme Crisis" (-0.50)).
  - reflexivity.
  - left. reflexivity.
Defined.

End WithdrawalPlans.

(** ** More on the Monte Carlo simulation *)

Section MonteCarloStatistics.
Import WithdrawalPlanner Vocabulary.

Lemma insert_sorted_sorted (x : Q) (l : list Q) :
  StronglySorted Qle l -> StronglySorted Qle (insert_sorted x l).
Proof.
  induction l as [| y l IH]; intro Hs; cbn [insert_sorted].
  - repeat constructor.
  - inversion Hs as [| ? ? Hl Hy]; subst.
    destruct (Qleb_spec x y) as [Hxy | Hxy].
    + constructor; [exact Hs |]. constructor; [exact Hxy |].
      eapply Forall_impl; [| exact Hy]. intros z Hz. cbn in Hz. lra.
    + constructor; [apply IH; exact Hl |].
      eapply Permutation_Forall; [apply insert_sorted_perm |].
      constructor; [lra | exact Hy].
Qed.

Lemma sorted_sorted (l : list Q) : StronglySorted Qle (sorted l).
Proof.
  induction l as [| x l IH]; cbn [sorted].
  - constructor.
  - apply insert_sorted_sorted. exact IH.
Qed.

Lemma strongly_sorted_nth (l : list Q) :
  StronglySorted Qle l ->
  forall i j a b,
    (i <= j)%nat -> nth_error l i = Some a -> nth_error l j = Some b ->
    a <= b.
Proof.
  induction 1 as [| x l Hs IH Hx]; intros i j a b Hij Hi Hj.
  - destruct i; discriminate.
  - destruct i as [| i], j as [| j]; cbn in Hi, Hj.
    + injection Hi as <-. injection Hj as <-. lra.
    + injection Hi as <-. rewrite Forall_forall in Hx.
      apply Hx. eapply nth_error_In; exact Hj.
    + lia.
    + eapply IH; [| exact Hi | exact Hj]. lia.
Qed.

(** The number of survivors among recorded trials. *)
Lemma simulate_trials_successes (sims : nat) :
  forall g sp aw years successes acc,
    let out := snd (simulate_trials sims g sp aw years successes acc) in
    exists new,
      snd out = acc ++ new
      /\ List.length new = sims
      /\ fst out
         = (successes + Z.of_nat (List.length (filter survived new)))%Z.
Proof.
  induction sims as [| sims IH]; intros g sp aw years successes acc;
    cbn [simulate_trials].
  - exists []. cbn. rewrite app_nil_r. repeat split. lia.
  - destruct (simulate_years years g sp aw) as [g' [portfolio surv]].
    cbn zeta.
    destruct (IH g' sp aw years
                (if surv then (successes + 1)%Z else successes)
                (acc ++ [{| survived := surv;
                            final_value := py_max 0 portfolio |}]))
      as (new & E & L & S).
    exists ({| survived := surv; final_value := py_max 0 portfolio |} :: new).
    rewrite E, <- app_assoc. cbn [app List.length filter survived].
    split; [reflexivity |]. split; [lia |].
    rewrite S. destruct surv; cbn [List.length]; lia.
Qed.

(** What the statistics of a run with at least one trial are. *)
Lemma summarize_values (sims successes : Z) (all_results : list TrialResult) :
  (1 <= sims)%Z ->
  List.length all_results = Z.to_nat sims ->
  let final_values := sorted (map final_value all_results) in
  exists r,
    summarize sims successes all_results = Ok r
    /\ success_rate r = inject_Z successes / inject_Z sims * 100
    /\ nth_error final_values (Z.to_nat (sims / 2))
       = Some (median_final_value r)
    /\ nth_error final_values (Z.to_nat (Qfloor (inject_Z sims * 0.1)))
       = Some (worst_case_10th_percentile r)
    /\ nth_error final_values (Z.to_nat (Qfloor (inject_Z sims * 0.9)))
       = Some (best_case_90th_percentile r).
Proof.
  intros Hsims Hlen final_values. unfold summarize.
  rewrite py_div_ok by (intro E; unfold Qeq in E; cbn in E; lia).
  cbn [bind]. fold final_values.
  assert (Hn : Z.of_nat (List.length final_values) = sims).
  { subst final_values.
    rewrite <- (Permutation_length (sorted_perm _)), length_map, Hlen. lia. }
  rewrite Hn.
  assert (Hget : forall i, (0 <= i < sims)%Z ->
                   exists v, nth_error final_values (Z.to_nat i) = Some v
                             /\ py_index final_values i = Ok v).
  { intros i Hi. unfold py_index.
    destruct (nth_error final_values (Z.to_nat i)) as [v |] eqn:E.
    - exists v. split; reflexivity.
    - apply nth_error_None in E. lia. }
  destruct (Hget (sims / 2)%Z) as (m & Nm & Em).
  { split; [apply Z.div_pos; lia | apply Z.div_lt_upper_bound; lia]. }
  destruct (Hget (Qfloor (inject_Z sims * 0.1))) as (lo & Nlo & Elo).
  { apply scaled_index_in_range; [lia | lra | lra]. }
  destruct (Hget (Qfloor (inject_Z sims * 0.9))) as (hi & Nhi & Ehi).
  { apply scaled_index_in_range; [lia | lra | lra]. }
  rewrite Em, Elo, Ehi. cbn [bind].
  eexists. split; [reflexivity |]. cbn. repeat split; assumption.
Qed.

(** X5.  For every run with at least one trial, the success rate is the
    percentage of recorded trials that survived, hence between 0 and
    100; and the three reported values are ordered: 10th percentile <=
    median <= 90th percentile. *)
Theorem monte_carlo_statistics (g : rng)
    (starting_portfolio annual_withdrawal : Q) (years sims : Z) :
  (1 <= sims)%Z ->
  let recorded :=
    trial_results g starting_portfolio annual_withdrawal years sims in
  let survivors := Z.of_nat (List.length (filter survived recorded)) in
  exists r,
    snd (run_monte_carlo g starting_portfolio annual_withdrawal years sims)
    = Ok r
    /\ success_rate r * inject_Z sims == 100 * inject_Z survivors
    /\ 0 <= success_rate r <= 100
    /\ worst_case_10th_percentile r <= median_final_value r
    /\ median_final_value r <= best_case_90th_percentile r.
Proof.
  intros Hsims recorded survivors. subst survivors recorded.
  unfold trial_results, run_monte_carlo.
  destruct (simulate_trials_successes (Z.to_nat sims) g starting_portfolio
              annual_withdrawal (Z.to_nat years) 0%Z [])
    as (new & E & L & S).
  destruct (simulate_trials (Z.to_nat sims) g starting_portfolio
              annual_withdrawal (Z.to_nat years) 0%Z [])
    as [g' [successes all_results]].
  cbn [fst snd app] in E, S |- *. subst all_results successes.
  destruct (summarize_values sims
              (0 + Z.of_nat (List.length (filter survived new))) new
              Hsims L) as (r & Er & Rate & Nm & Nlo & Nhi).
  exists r. split; [exact Er |].
  set (k := List.length (filter survived new)) in *.
  assert (Hk : (0 <= Z.of_nat k <= sims)%Z).
  { split; [lia |]. subst k.
    pose proof (filter_length_le survived new). lia. }
  assert (Hs : 1 <= inject_Z sims).
  { change 1 with (inject_Z 1). rewrite <- Zle_Qle. exact Hsims. }
  assert (Hk0 : 0 <= inject_Z (Z.of_nat k)).
  { change 0 with (inject_Z 0). rewrite <- Zle_Qle. lia. }
  assert (Hk1 : inject_Z (Z.of_nat k) <= inject_Z sims).
  { rewrite <- Zle_Qle. lia. }
  assert (Hrate : success_rate r * inject_Z sims
                  == 100 * inject_Z (Z.of_nat k)).
  { rewrite Rate. replace (0 + Z.of_nat k)%Z with (Z.of_nat k) by lia.
    field. lra. }
  split; [exact Hrate |].
  split; [split; nra |].
  pose proof (sorted_sorted (map final_value new)) as Hsorted.
  split.
  - eapply strongly_sorted_nth; [exact Hsorted | | exact Nlo | exact Nm].
    apply Z2Nat.inj_le.
    + apply (scaled_index_in_range sims 0.1); [lia | lra | lra].
    + apply Z.div_pos; lia.
    + rewrite (Zdiv_Qdiv sims 2). apply Qfloor_resp_le.
      unfold Qdiv. change (/ inject_Z 2) with (1 # 2). lra.
  - eapply strongly_sorted_nth; [exact Hsorted | | exact Nm | exact Nhi].
    apply Z2Nat.inj_le.
    + apply Z.div_pos; lia.
    + apply (scaled_index_in_range sims 0.9); [lia | lra | lra].
    + rewrite (Zdiv_Qdiv sims 2). apply Qfloor_resp_le.
      unfold Qdiv. change (/ inject_Z 2) with (1 # 2). lra.
Qed.

Lemma monte_carlo_statistics_witness :
  exists r,
    snd (run_monte_carlo up_then_down 100 100 3 2) = Ok r
    /\ 0 <= success_rate r <= 100
    /\ worst_case_10th_percentile r <= median_final_value r
    /\ median_final_value r <= best_case_90th_percentile r.
Proof.
  destruct (monte_carlo_statistics up_then_down 100 100 3 2)
    as (r & E & _ & B & L & H); [lia |].
  exists r. repeat split; try assumption; apply B.
Defined.

(** A trial that is cut short ends at or below zero. *)
Lemma simulate_years_failed (years : nat) :
  forall g portfolio withdrawal,
    snd (snd (simulate_years years g portfolio withdrawal)) = false ->
    fst (snd (simulate_years years g portfolio withdrawal)) <= 0.
Proof.
  induction years as [| years IH]; intros g portfolio withdrawal;
    cbn [simulate_years].
  - cbn. discriminate.
  - unfold gauss.
    set (p' := portfolio * (1 + (0.07 + variates g (cursor g) * 0.15))
               - withdrawal).
    destruct (Qleb_spec p' 0) as [Hle | Hgt].
    + intros _. exact Hle.
    + apply IH.
Qed.

(** With the same draws, a trial that survives a larger non-negative
    withdrawal survives a smaller one, with at least as much left. *)
Lemma simulate_years_monotone (years : nat) :
  forall g p1 p2 w1 w2,
    0 <= w1 -> w1 <= w2 ->
    p1 == p2 \/ (0 < p2 /\ p2 <= p1) ->
    snd (snd (simulate_years years g p2 w2)) = true ->
    snd (snd (simulate_years years g p1 w1)) = true
    /\ fst (snd (simulate_years years g p2 w2))
       <= fst (snd (simulate_years years g p1 w1)).
Proof.
  induction years as [| years IH]; intros g p1 p2 w1 w2 Hw1 Hw Hp;
    cbn [simulate_years].
  - cbn. intros _. split; [reflexivity |]. destruct Hp as [E | [_ L]]; lra.
  - unfold gauss.
    set (r := 0.07 + variates g (cursor g) * 0.15).
    set (g' := {| variates := variates g; cursor := S (cursor g) |}).
    destruct (Qleb_spec (p2 * (1 + r) - w2) 0) as [H2 | H2];
      [cbn; discriminate |].
    assert (Hle : p2 * (1 + r) - w2 <= p1 * (1 + r) - w1).
    { destruct Hp as [E | [Hpos L]].
      - rewrite E. lra.
      - destruct (Qlt_le_dec (1 + r) 0) as [Hneg | Hnonneg]; nra. }
    destruct (Qleb_spec (p1 * (1 + r) - w1) 0) as [H1 | H1]; [lra |].
    apply IH; [lra | lra |]. right. split; assumption.
Qed.

(** X6.  For a single trial on the same draws, raising a non-negative
    annual withdrawal never raises the success rate nor the reported
    median. *)
Theorem single_trial_monotone_in_withdrawal (g : rng)
    (starting_portfolio smaller larger : Q) (years : Z) :
  0 <= smaller -> smaller <= larger ->
  exists r1 r2,
    snd (run_monte_carlo g starting_portfolio smaller years 1) = Ok r1
    /\ snd (run_monte_carlo g starting_portfolio larger years 1) = Ok r2
    /\ success_rate r2 <= success_rate r1
    /\ median_final_value r2 <= median_final_value r1.
Proof.
  intros Hs Hl. unfold run_monte_carlo.
  change (Z.to_nat 1) with 1%nat. cbn [simulate_trials].
  pose proof (simulate_years_monotone (Z.to_nat years) g starting_portfolio
                starting_portfolio smaller larger Hs Hl
                (or_introl (Qeq_refl _))) as Hmono.
  pose proof (simulate_years_failed (Z.to_nat years) g starting_portfolio
                larger) as Hfail.
  destruct (simulate_years (Z.to_nat years) g starting_portfolio smaller)
    as [g1 [p1 s1]].
  destruct (simulate_years (Z.to_nat years) g starting_portfolio larger)
    as [g2 [p2 s2]].
  cbn [fst snd app] in *.
  set (t1 := {| survived := s1; final_value := py_max 0 p1 |}).
  set (t2 := {| survived := s2; final_value := py_max 0 p2 |}).
  destruct (summarize_values 1 (if s1 then 0 + 1 else 0) [t1])
    as (r1 & E1 & R1 & N1 & _); [lia | reflexivity |].
  destruct (summarize_values 1 (if s2 then 0 + 1 else 0) [t2])
    as (r2 & E2 & R2 & N2 & _); [lia | reflexivity |].
  exists r1, r2. split; [exact E1 |]. split; [exact E2 |].
  cbn in N1, N2. injection N1 as N1. injection N2 as N2.
  rewrite R1, R2, <- N1, <- N2.
  pose proof (py_max_lower 0 p1) as M1.
  destruct s2.
  - destruct (Hmono eq_refl) as [-> Hp]. split; [vm_compute; discriminate |].
    destruct (py_max_cases 0 p1) as [[A ->] | [A ->]];
      destruct (py_max_cases 0 p2) as [[B ->] | [B ->]]; lra.
  - specialize (Hfail eq_refl). split.
    + destruct s1; vm_compute; discriminate.
    + destruct (py_max_cases 0 p2) as [[B ->] | [B ->]]; lra.
Qed.

Lemma single_trial_monotone_in_withdrawal_witness :
  exists r1 r2,
    snd (run_monte_carlo up_then_down 100 100 1 1) = Ok r1
    /\ snd (run_monte_carlo up_then_down 100 130 1 1) = Ok r2
    /\ success_rate r2 <= success_rate r1
    /\ median_final_value r2 <= median_final_value r1.
Proof.
  apply (single_trial_monotone_in_withdrawal up_then_down 100 100 130 1);
    discriminate.
Defined.

End MonteCarloStatistics.

(** ** More on taxes *)

Section Taxes.
Import TaxCalculator.







(** X10.  The UK dividend allowance is a cliff, not a deduction: up to
    500 no tax is due, and above 500 the whole dividend is taxed at
    8.75%, so a dividend between 500 and 547.94 nets less than a
    dividend of 500. *)
Theorem uk_dividend_allowance_is_a_cliff (self : TaxCalculator)
    (j : option string) (status : string) (amount : Q) :
  resolve_jurisdiction self j = "uk"%string ->
  (amount <= 500 ->
   exists r,
     calculate_dividend_tax self amount j status = Ok r
     /\ dividend_tax_owed r = 0 /\ net_dividend r = amount)
  /\ (500 < amount ->
      exists r,
        calculate_dividend_tax self amount j status = Ok r
        /\ dividend_tax_owed r = amount * 0.0875
        /\ (amount < 547.94 -> net_dividend r < 500)).
Proof.
  intro Huk. unfold calculate_dividend_tax. rewrite Huk.
  cbn [String.eqb Ascii.eqb Bool.eqb].
  unfold UK_dividend_allowance, UK_dividend_basic_rate. split; intro H.
  - rewrite (Qleb_true _ _ H). eexists. repeat split.
  - rewrite (Qleb_false _ _ H). eexists. split; [reflexivity |].
    cbn. split; [reflexivity |]. intro; lra.
Qed.

Lemma uk_dividend_allowance_is_a_cliff_witness :
  exists r,
    calculate_dividend_tax (init "UK") 520 None "resident" = Ok r
    /\ dividend_tax_owed r = 520 * 0.0875
    /\ (520 < 547.94 -> net_dividend r < 500).
Proof.
  destruct (uk_dividend_allowance_is_a_cliff (init "UK") None "resident" 520)
    as [_ H]; [reflexivity |].
  apply H. reflexivity.
Defined.

(** X11.  Every recommendation of the tax advice is about one of the
    given positions and is justified by it: holding is advised only by a
    calculator whose default jurisdiction is 'us', on a gain 1 to 30
    days short of a year; harvesting only on a loss above 1000, whose
    size it quotes; year-end planning only on a loss with at most 60
    days to go. *)
Theorem tax_advice_is_justified (self : TaxCalculator)
    (positions : list OpenPosition) (today december_31 : datetime)
    (o : optimization) :
  In o (get_tax_optimization_advice self positions today december_31) ->
  exists pos,
    In pos positions
    /\ let gain :=
         (open_current_price pos - open_average_cost pos)
         * open_total_quantity pos in
       let held := days_between today (open_purchase_date pos) in
       match o with
       | hold_for_long_term sym savings days =>
           sym = open_symbol pos
           /\ default_jurisdiction self = "us"%string
           /\ 0 < gain /\ savings = gain * 0.07
           /\ days = (365 - held)%Z /\ (0 < days <= 30)%Z
       | tax_loss_harvesting sym loss days =>
           sym = open_symbol pos
           /\ gain < -1000 /\ loss = Qabs gain /\ 1000 < loss
           /\ days = held
       | year_end_planning sym days =>
           sym = open_symbol pos
           /\ gain < 0
           /\ days = days_between december_31 today /\ (days <= 60)%Z
       end.
Proof.
  unfold get_tax_optimization_advice. intro Hin.
  apply in_flat_map in Hin. destruct Hin as (pos & Hpos & Ho).
  exists pos. split; [exact Hpos |]. cbn zeta.
  unfold advice_for in Ho.
  set (gain := (open_current_price pos - open_average_cost pos)
               * open_total_quantity pos) in *.
  set (held := days_between today (open_purchase_date pos)) in *.
  apply in_app_or in Ho. destruct Ho as [Ho | Ho].
  - destruct (String.eqb_spec (default_jurisdiction self) "us") as [U | U];
      [| destruct Ho].
    destruct (Qltb_spec 0 gain) as [G | G]; [| destruct Ho].
    destruct (Z.ltb_spec 0 (365 - held)) as [D1 | D1]; [| destruct Ho].
    destruct (Z.leb_spec (365 - held) 30) as [D2 | D2]; [| destruct Ho].
    destruct Ho as [<- | []]. repeat split; try assumption.
  - apply in_app_or in Ho. destruct Ho as [Ho | Ho].
    + destruct (Qltb_spec gain (-1000)) as [G | G]; [| destruct Ho].
      destruct Ho as [<- | []]. repeat split; try assumption.
      rewrite Qabs_neg by lra. lra.
    + destruct (Z.leb_spec (days_between december_31 today) 60) as [D | D];
        [| destruct Ho].
      destruct (Qltb_spec gain 0) as [G | G]; [| destruct Ho].
      destruct Ho as [<- | []]. repeat split; assumption.
Qed.

Lemma tax_advice_is_justified_witness :
  exists pos,
    In pos [{| open_symbol := "MSFT"; open_purchase_date := 0%Z;
               open_current_price := 250; open_average_cost := 300;
               open_total_quantity := 50 |}]
    /\ (open_current_price pos - open_average_cost pos)
       * open_total_quantity pos < -1000.
Proof.
  destruct (tax_advice_is_justified (init "kenya")
              [{| open_symbol := "MSFT"; open_purchase_date := 0%Z;
                  open_current_price := 250; open_average_cost := 300;
                  open_total_quantity := 50 |}]
              (100 * 86400000000)%Z (300 * 86400000000)%Z
              (tax_loss_harvesting "MSFT"
                 (Qabs ((250 - 300) * 50)) 100))
    as (pos & Hin & _ & G & _).
  - left. reflexivity.
  - exists pos. split; assumption.
Defined.

End Taxes.

(** ** More on the portfolio manager *)

Section Manager.
Import PortfolioManager Vocabulary.

(** X12.  A lot that was added is found again under its symbol, whatever
    the case of the query: after [add_position], the lots found for a
    query are the ones found before, followed by the new lot when the
    query names its symbol; and the symbol is among the unique symbols. *)
Theorem added_lot_is_found (pm : Manager) (today : string)
    (sym : string) (qty price_paid : Q) (bought : option string)
    (kind mkt note : string) (query : string) :
  let out := add_position pm today sym qty price_paid bought kind mkt note in
  get_positions_by_symbol (fst out) query
  = get_positions_by_symbol pm query
    ++ (if String.eqb (upper sym) (upper query) then [added (snd out)] else [])
  /\ (exists earlier,
         get_positions_by_symbol (fst out) (upper sym)
         = earlier ++ [added (snd out)]
         /\ get_positions_by_symbol (fst out) sym
            = earlier ++ [added (snd out)])
  /\ In (upper sym) (get_unique_symbols (fst out)).
Proof.
  intro out. subst out. unfold add_position, get_positions_by_symbol.
  cbn [fst snd portfolio positions set_positions added].
  split; [| split].
  - rewrite filter_app. cbn [filter symbol]. reflexivity.
  - exists (filter (fun p => String.eqb (symbol p) (upper sym))
              (positions (portfolio pm))).
    rewrite upper_idempotent, filter_app. cbn [filter symbol].
    rewrite String.eqb_refl. split; reflexivity.
  - unfold get_unique_symbols. cbn [portfolio positions set_positions].
    apply nodup_In. rewrite map_app. apply in_or_app. right. now left.
Qed.




(** X14.  A manual price that was stored is the price found again for
    that symbol on the NSE market; the manual prices of all other
    symbols, the prices of every other market and the lots are left as
    they were.  The symbol is stored as given, without upper-casing. *)
Theorem manual_price_is_found (pm : Manager) (now sym : string)
    (new_price : Q) :
  let pm' := fst (update_manual_price pm now sym new_price) in
  get_current_price pm' sym "NSE" = Some new_price
  /\ (forall other,
         other <> sym ->
         get_current_price pm' other "NSE" = get_current_price pm other "NSE")
  /\ (forall other mkt,
         mkt <> "NSE"%string ->
         get_current_price pm' other mkt = get_current_price pm other mkt)
  /\ positions (portfolio pm') = positions (portfolio pm)
  /\ cash_balance (portfolio pm') = cash_balance (portfolio pm).
Proof.
  intro pm'. subst pm'. unfold update_manual_price, get_current_price.
  cbn [fst portfolio set_portfolio manual_prices positions cash_balance
       fmp_price String.eqb Ascii.eqb Bool.eqb].
  split; [| split; [| split; [| split]]].
  - rewrite dict_get_set_same. reflexivity.
  - intros other Hne. rewrite dict_get_set_other by exact Hne. reflexivity.
  - intros other mkt Hne.
    destruct (String.eqb_spec mkt "NSE"); [contradiction | reflexivity].
  - reflexivity.
  - reflexivity.
Qed.












(** X18.  The health score is never below 25 (the three ladders never
    give less than 10, 5 and 10); the insights are never empty; and the
    'portfolio is healthy' insight is given exactly when no sub-score is
    low (diversification, risk alignment and sustainability at 20 or
    more, performance at 15 or more), in which case it is the only
    insight. *)
Theorem health_floor_and_insights (pm : Manager) (year : string)
    (user_risk_score : Q) :
  let h := calculate_portfolio_health_score pm year user_risk_score in
  let s := scores h in
  25 <= total_score h
  /\ 10 <= risk_alignment s /\ 5 <= performance s /\ 10 <= sustainability s
  /\ insights h <> []
  /\ (In portfolio_is_healthy (insights h)
      <-> 20 <= diversification s /\ 20 <= risk_alignment s
          /\ 15 <= performance s /\ 20 <= sustainability s)
  /\ (In portfolio_is_healthy (insights h)
      -> insights h = [portfolio_is_healthy])
  /\ (In concentration_risk (insights h) <-> diversification s < 20)
  /\ (In withdrawal_rate_too_high (insights h) <-> sustainability s < 20).
Proof.
  intros h s. subst s h. unfold calculate_portfolio_health_score.
  cbn [scores total_score insights diversification risk_alignment
       performance sustainability py_sum fold_left].
  match goal with
  | |- context [py_max 0 (py_min 25 ?x)] =>
      pose proof (clamp_0_25 x) as Hd;
      generalize dependent (py_max 0 (py_min 25 x))
  end.
  intros d Hd.
  generalize (_estimate_portfolio_risk pm) as prisk.
  generalize (total_pl_percent (calculate_total_portfolio pm)) as plp.
  match goal with
  | |- context [Qltb ?y 0.04] => generalize y as rate
  end.
  intros rate plp prisk.
  generalize (Qabs (prisk - user_risk_score)) as rd. intro rd.
  set (r := if Qltb rd 0.1 then 25
            else if Qltb rd 0.2 then 20 else if Qltb rd 0.3 then 15 else 10).
  set (p := if Qltb 20 plp then 25
            else if Qltb 10 plp then 20
            else if Qltb 5 plp then 15 else if Qltb 0 plp then 10 else 5).
  set (w := if Qltb rate 0.04 then 25
            else if Qltb rate 0.05 then 20
            else if Qltb rate 0.06 then 15 else 10).
  assert (Hr : 10 <= r <= 25) by (subst r; by_comparison; lra).
  assert (Hp : 5 <= p <= 25) by (subst p; by_comparison; lra).
  assert (Hw : 10 <= w <= 25) by (subst w; by_comparison; lra).
  clearbody r p w.
  unfold _generate_health_insights.
  cbn [diversification risk_alignment performance sustainability].
  destruct (Qltb_spec d 20); destruct (Qltb_spec r 20);
    destruct (Qltb_spec p 15); destruct (Qltb_spec w 20);
    destruct (Qltb user_risk_score prisk); cbn [app];
    repeat split; cbn; intros; try lra; try congruence;
    cbn in *; intuition (try congruence; try lra).
Qed.

(** X19.  A portfolio without lots is never rated better than Fair:
    whatever its cash, its withdrawals and the risk score,
    diversification scores 10, performance scores 5, and the total is at
    most 65. *)
Theorem no_lots_health (pm : Manager) (year : string) (user_risk_score : Q) :
  positions (portfolio pm) = [] ->
  let h := calculate_portfolio_health_score pm year user_risk_score in
  diversification (scores h) == 10
  /\ performance (scores h) = 5
  /\ total_score h <= 65
  /\ (health_rating h = Fair \/ health_rating h = Needs_Attention)
  /\ In concentration_risk (insights h)
  /\ In underperforming (insights h).
Proof.
  intros Hno h. subst h.
  assert (Hsyms : by_symbol_of (calculate_allocation pm) = []).
  { unfold calculate_allocation, calculate_total_portfolio,
      get_unique_symbols. rewrite Hno. cbn.
    destruct (Qeq_bool (0 + cash_balance (portfolio pm)) 0); reflexivity. }
  assert (Hpl : total_pl_percent (calculate_total_portfolio pm) = 0).
  { unfold calculate_total_portfolio, get_unique_symbols. rewrite Hno.
    reflexivity. }
  unfold calculate_portfolio_health_score.
  rewrite Hsyms, Hpl.
  cbn [scores total_score health_rating insights diversification
       performance py_sum fold_left List.length].
  match goal with
  | |- context [py_max 0 (py_min 25 ?x)] => set (d := py_max 0 (py_min 25 x))
  end.
  assert (Hd : d == 10) by reflexivity.
  assert (Hd20 : Qltb d 20 = true) by reflexivity.
  clearbody d.
  change (if Qltb 20 0 then 25
          else if Qltb 10 0 then 20
          else if Qltb 5 0 then 15 else if Qltb 0 0 then 10 else 5) with 5.
  generalize (_estimate_portfolio_risk pm) as prisk. intro prisk.
  generalize (Qabs (prisk - user_risk_score)) as rd. intro rd.
  match goal with
  | |- context [Qltb ?y 0.04] => generalize y as rate
  end.
  intro rate.
  set (r := if Qltb rd 0.1 then 25
            else if Qltb rd 0.2 then 20 else if Qltb rd 0.3 then 15 else 10).
  set (w := if Qltb rate 0.04 then 25
            else if Qltb rate 0.05 then 20
            else if Qltb rate 0.06 then 15 else 10).
  assert (Hr : 10 <= r <= 25) by (subst r; by_comparison; lra).
  assert (Hw : 10 <= w <= 25) by (subst w; by_comparison; lra).
  clearbody r w.
  unfold _generate_health_insights.
  cbn [diversification risk_alignment performance sustainability].
  rewrite Hd20.
  replace (Qltb 5 15) with true by reflexivity.
  split; [exact Hd |]. split; [reflexivity |]. split; [lra |].
  split.
  - destruct (Qleb_spec 85 (0 + d + r + 5 + w)); [lra |].
    destruct (Qleb_spec 70 (0 + d + r + 5 + w)); [lra |].
    destruct (Qleb 55 (0 + d + r + 5 + w)); auto.
  - destruct (Qltb r 20); destruct (Qltb user_risk_score prisk);
      destruct (Qltb w 20); cbn; auto 10.
Qed.

Lemma no_lots_health_witness :
  let pm :=
    {| portfolio :=
         {| positions := [];
            withdrawals := [];
            cash_balance := 1000;
            manual_prices := [];
            withdrawal_rate := None;
            rebalance_threshold := None |};
       fmp_price := fun _ => None |} in
  total_score (calculate_portfolio_health_score pm "2024" 0.5) <= 65.
Proof.
  intro pm. apply (no_lots_health pm "2024" 0.5). reflexivity.
Defined.

End Manager.

(** ** Allocation and concentration of the chat context *)

Section ContextAllocation.
Import PortfolioContext.







End ContextAllocation.

(** ** Compositions of the ledger endpoints *)

Section LedgerRoundTrips.
Import Server Vocabulary.



(** The row found for a symbol is still the first one of that symbol
    after an update by id that keeps the symbols, and it is updated. *)
Lemma find_position_update_row (l : Ledger) (sym : string)
    (pos : PositionRow) (f : PositionRow -> PositionRow) :
  (forall r, symbol (f r) = symbol r) ->
  find_position l sym = Some pos ->
  find_position (update_row l (id pos) f) sym = Some (f pos).
Proof.
  intros Hsym. unfold find_position, update_row, set_rows. cbn [positions].
  induction (positions l) as [| r rows IH]; cbn [find map];
    [discriminate |].
  intro Hfind.
  assert (Hkeep : symbol (if Nat.eqb (id r) (id pos) then f r else r)
                  = symbol r)
    by (destruct (Nat.eqb (id r) (id pos)); [apply Hsym | reflexivity]).
  rewrite Hkeep.
  destruct (String.eqb (symbol r) sym).
  - injection Hfind as ->. now rewrite Nat.eqb_refl.
  - now apply IH.
Qed.



(** X23.  A partial sale lowers [total_quantity] but leaves the lots in
    [entries] as they are, and a later purchase of the same symbol
    recomputes the row from its lots: after selling part of a position
    and buying again, the row holds every lot ever bought plus the new
    one, its [total_quantity] is their sum, whatever was sold, its
    [total_invested] is what they cost, and, when that quantity is
    positive, its [average_cost] is the cost per unit. *)
Theorem purchase_after_partial_sale_recounts_lots (l : Ledger)
    (today : string) (sell : SellRequest) (buy : AddRequest)
    (pos : PositionRow) :
  find_position l (upper (sell_symbol sell)) = Some pos ->
  sell_quantity sell < total_quantity pos ->
  ~ total_quantity pos == 0 ->
  upper (add_symbol buy) = upper (sell_symbol sell) ->
  add_quantity buy * add_purchase_price buy
  <= cash_balance l
     + sell_quantity sell
       * match sell_price sell with Some p => p | None => 0 end ->
  exists l1 sold l2 bought row lot,
    sell_position l today sell = (l1, inr sold)
    /\ add_position l1 today buy = (l2, inr bought)
    /\ find_position l2 (upper (sell_symbol sell)) = Some row
    /\ entries row = entries pos ++ [lot]
    /\ entry_quantity lot = add_quantity buy
    /\ entry_price lot = add_purchase_price buy
    /\ total_quantity row
       == py_sum (map entry_quantity (entries pos)) + add_quantity buy
    /\ total_invested row
       == py_sum (map (fun e => entry_quantity e * entry_price e)
                      (entries pos))
          + add_quantity buy * add_purchase_price buy
    /\ (0 < total_quantity row ->
        average_cost row * total_quantity row == total_invested row).
Proof.
  intros Hfind Hpart Hnz Hsame Hcash.
  unfold sell_position. rewrite Hfind.
  rewrite Qltb_false by lra. rewrite (Qleb_false _ _ Hpart).
  rewrite py_div_ok by assumption. cbv zeta.
  match goal with
  | |- exists l1 sold l2 bought row lot, (?a, inr ?b) = _ /\ _ =>
      exists a, b
  end.
  match goal with
  | |- context [update_row ?l0 (id pos) ?f] =>
      set (sale := f);
      assert (Hfound : find_position (update_row l0 (id pos) sale)
                         (upper (sell_symbol sell)) = Some (sale pos))
        by (apply find_position_update_row; [reflexivity | exact Hfind])
  end.
  unfold add_position. rewrite Hsame, Hfound.
  match goal with
  | |- context [Qltb (cash_balance ?l1)
                  (add_quantity buy * add_purchase_price buy)] =>
      replace (Qltb (cash_balance l1)
                 (add_quantity buy * add_purchase_price buy))
        with false by (symmetry; apply Qltb_false; exact Hcash)
  end.
  cbv zeta.
  match goal with
  | |- context [update_row ?l1 (id (sale pos)) ?f] =>
      set (purchase := f);
      assert (Hfound' : find_position (update_row l1 (id (sale pos)) purchase)
                          (upper (sell_symbol sell)) = Some (purchase (sale pos)))
        by (apply find_position_update_row; [reflexivity | exact Hfound])
  end.
  eexists; eexists; eexists; eexists.
  split; [reflexivity |]. split; [reflexivity |].
  split; [exact Hfound' |].
  cbn [entries purchase sale total_quantity total_invested average_cost
       entry_quantity entry_price].
  split; [reflexivity |]. split; [reflexivity |]. split; [reflexivity |].
  split; [| split].
  - rewrite map_app, py_sum_app. cbn [map entry_quantity].
    rewrite py_sum_cons. change (py_sum []) with 0. ring.
  - rewrite map_app, py_sum_app. cbn [map entry_quantity entry_price].
    rewrite py_sum_cons. change (py_sum []) with 0. ring.
  - intro Hheld. rewrite (Qltb_true _ _ Hheld). field. lra.
Qed.

(** Four of the ten AAPL units are sold at 270, then one is bought at
    300: the row counts eleven units again. *)
Lemma purchase_after_partial_sale_recounts_lots_witness :
  exists l1 sold l2 bought row,
    sell_position aapl_ledger "2024-06-01" (sell_aapl 4 270)
    = (l1, inr sold)
    /\ add_position l1 "2024-06-01"
         {| add_symbol := "AAPL"; add_quantity := 1;
            add_purchase_price := 300; add_purchase_date := None;
            add_market := None; add_asset_type := None; add_notes := "" |}
       = (l2, inr bought)
    /\ find_position l2 "AAPL" = Some row
    /\ total_quantity row == 11.
Proof.
  destruct (purchase_after_partial_sale_recounts_lots aapl_ledger "2024-06-01"
              (sell_aapl 4 270)
              {| add_symbol := "AAPL"; add_quantity := 1;
                 add_purchase_price := 300; add_purchase_date := None;
                 add_market := None; add_asset_type := None;
                 add_notes := "" |}
              aapl_row)
    as (l1 & sold & l2 & bought & row & lot & E1 & E2 & F & _ & _ & _
        & Hsum & _ & _);
    [reflexivity | reflexivity | discriminate | reflexivity | discriminate |].
  exists l1, sold, l2, bought, row.
  split; [exact E1 |]. split; [exact E2 |]. split; [exact F |].
  rewrite Hsum. reflexivity.
Defined.

(** X24.  An error response of [deposit_cash], [add_position] or
    [add_withdrawal] comes with the ledger as it was.  An error response
    of [sell_position] does too, except for the division by zero of a
    partial sale, which happens when a negative quantity is sold from a
    row that holds zero units: by then the proceeds have been added to
    the cash balance.  A row of zero units bought on an empty ledger
    shows the case: the sale of -1 unit at 10 answers 500 and leaves a
    cash balance of -10. *)
Theorem error_responses_and_the_ledger (l : Ledger) (today : string) :
  (forall amount l' e,
      deposit_cash l amount = (l', inl e) -> l' = l /\ amount <= 0)
  /\ (forall data l' e,
        add_position l today data = (l', inl e) ->
        l' = l
        /\ cash_balance l < add_quantity data * add_purchase_price data)
  /\ (forall data l' e,
        add_withdrawal l today data = (l', inl e) ->
        l' = l /\ cash_balance l < req_amount data)
  /\ (forall data l' e,
        sell_position l today data = (l', inl e) ->
        l' = l
        \/ (e = {| status_code := 500;
                   http_detail := float_division_by_zero |}
            /\ sell_quantity data < 0
            /\ (exists pos,
                   find_position l (upper (sell_symbol data)) = Some pos
                   /\ total_quantity pos == 0)
            /\ positions l' = positions l
            /\ cash_balance l'
               = cash_balance l
                 + sell_quantity data
                   * match sell_price data with Some p => p | None => 0 end))
  /\ exists l1 bought l2 e,
       add_position empty_ledger today
         {| add_symbol := "AAPL"; add_quantity := 0;
            add_purchase_price := 10; add_purchase_date := None;
            add_market := None; add_asset_type := None; add_notes := "" |}
       = (l1, inr bought)
       /\ sell_position l1 today (sell_aapl (-1) 10) = (l2, inl e)
       /\ status_code e = 500%Z
       /\ cash_balance l2 == -10.
Proof.
  split; [| split; [| split; [| split]]].
  - intros amount l' e. unfold deposit_cash.
    destruct (Qleb_spec amount 0); intro E; [| discriminate E].
    injection E as <- _. split; [reflexivity | assumption].
  - intros data l' e. unfold add_position.
    destruct (Qltb_spec (cash_balance l)
                (add_quantity data * add_purchase_price data)).
    + intro E. injection E as <- _. split; [reflexivity | assumption].
    + destruct (find_position l (upper (add_symbol data)));
        intro E; inversion E.
  - intros data l' e. unfold add_withdrawal.
    destruct (Qltb_spec (cash_balance l) (req_amount data));
      intro E; [| discriminate E].
    injection E as <- _. split; [reflexivity | assumption].
  - intros data l' e. unfold sell_position.
    destruct (find_position l (upper (sell_symbol data))) as [pos |] eqn:F;
      [| intro E; injection E as <- _; now left].
    destruct (Qltb_spec (total_quantity pos) (sell_quantity data))
      as [Hmore | Hle]; [intro E; injection E as <- _; now left |].
    destruct (Qleb_spec (total_quantity pos) (sell_quantity data))
      as [Hall | Hpart]; [intro E; discriminate E |].
    unfold py_div.
    destruct (Qeq_bool (total_quantity pos) 0) eqn:Z0;
      intro E; [| discriminate E].
    injection E as <- <-.
    right. apply Qeq_bool_iff in Z0.
    split; [reflexivity |]. split; [lra |].
    split; [exists pos; auto |]. split; reflexivity.
  - eexists; eexists; eexists; eexists.
    split; [reflexivity |]. split; [reflexivity |].
    split; reflexivity.
Qed.

(** X25.  A cash balance that is not negative stays so through a
    deposit, a purchase and a withdrawal, whether the request succeeds
    or is refused, and through a sale of a quantity that is not negative
    at a price that is not negative. *)
Theorem cash_balance_stays_nonnegative (l : Ledger) (today : string) :
  0 <= cash_balance l ->
  (forall amount, 0 <= cash_balance (fst (deposit_cash l amount)))
  /\ (forall data, 0 <= cash_balance (fst (add_position l today data)))
  /\ (forall data, 0 <= cash_balance (fst (add_withdrawal l today data)))
  /\ (forall data,
        0 <= sell_quantity data ->
        0 <= match sell_price data with Some p => p | None => 0 end ->
        0 <= cash_balance (fst (sell_position l today data))).
Proof.
  intro Hcash. split; [| split; [| split]].
  - intro amount. unfold deposit_cash.
    destruct (Qleb_spec amount 0); cbn [fst cash_balance set_cash]; lra.
  - intro data. unfold add_position.
    destruct (Qltb_spec (cash_balance l)
                (add_quantity data * add_purchase_price data));
      [exact Hcash |].
    destruct (find_position l (upper (add_symbol data)));
      cbn [fst cash_balance set_cash]; lra.
  - intro data. unfold add_withdrawal.
    destruct (Qltb_spec (cash_balance l) (req_amount data));
      cbn [fst cash_balance set_cash]; lra.
  - intros data Hq Hp. unfold sell_position.
    destruct (find_position l (upper (sell_symbol data))) as [pos |];
      [| exact Hcash].
    destruct (Qltb (total_quantity pos) (sell_quantity data));
      [exact Hcash |].
    assert (Hcredit : 0 <= cash_balance l
                           + sell_quantity data
                             * match sell_price data with
                               | Some p => p
                               | None => 0
                               end) by nra.
    destruct (Qleb (total_quantity pos) (sell_quantity data));
      [exact Hcredit |].
    destruct (py_div (total_quantity pos - sell_quantity data)
                (total_quantity pos)); exact Hcredit.
Qed.

(** On the ledger with 50 in cash: a sale, at no loss of cash. *)
Lemma cash_balance_stays_nonnegative_witness :
  0 <= cash_balance
         (fst (sell_position aapl_ledger "2024-06-01" (sell_aapl 4 270))).
Proof.
  destruct (cash_balance_stays_nonnegative aapl_ledger "2024-06-01")
    as (_ & _ & _ & Hsell); [discriminate |].
  apply Hsell; discriminate.
Defined.

End LedgerRoundTrips.

(** ** Events *)

Section Events.
Import EventDetector Vocabulary.

Lemma insert_high (e : Event) (l : list Event) :
  event_priority e = PRIORITY_HIGH ->
  Forall (fun e' => event_priority e' = PRIORITY_HIGH
                    \/ event_priority e' = PRIORITY_MEDIUM) l ->
  insert_by_priority e l = e :: l.
Proof.
  intros He Hl. destruct Hl as [| e' l [H | H] _]; cbn [insert_by_priority];
    [reflexivity | |]; rewrite He, H; reflexivity.
Qed.

Lemma insert_medium (e : Event) (highs mediums : list Event) :
  event_priority e = PRIORITY_MEDIUM ->
  Forall (fun e' => event_priority e' = PRIORITY_HIGH) highs ->
  Forall (fun e' => event_priority e' = PRIORITY_MEDIUM) mediums ->
  insert_by_priority e (highs ++ mediums) = highs ++ e :: mediums.
Proof.
  intros He Hh Hm.
  induction Hh as [| h highs Hh _ IH]; cbn [app insert_by_priority].
  - destruct Hm as [| m mediums Hm _]; cbn [insert_by_priority];
      [reflexivity |].
    rewrite He, Hm. reflexivity.
  - rewrite He, Hh. cbn. now rewrite IH.
Qed.

Lemma filter_has_priority (p : priority) (l : list Event) :
  Forall (fun e => event_priority e = p) (filter (has_priority p) l).
Proof.
  apply Forall_forall. intros e He. apply filter_In in He.
  destruct He as [_ He]. unfold has_priority in He.
  destruct (event_priority e), p; (reflexivity || discriminate He).
Qed.

Lemma has_priority_high (e : Event) :
  event_priority e = PRIORITY_HIGH ->
  has_priority PRIORITY_HIGH e = true
  /\ has_priority PRIORITY_MEDIUM e = false.
Proof. unfold has_priority. intros ->. split; reflexivity. Qed.

Lemma has_priority_medium (e : Event) :
  event_priority e = PRIORITY_MEDIUM ->
  has_priority PRIORITY_HIGH e = false
  /\ has_priority PRIORITY_MEDIUM e = true.
Proof. unfold has_priority. intros ->. split; reflexivity. Qed.

Lemma sort_high_medium (l : list Event) :
  Forall (fun e => event_priority e = PRIORITY_HIGH
                   \/ event_priority e = PRIORITY_MEDIUM) l ->
  sort_by_priority l
  = filter (has_priority PRIORITY_HIGH) l
    ++ filter (has_priority PRIORITY_MEDIUM) l.
Proof.
  induction 1 as [| e l He Hl IH]; cbn [sort_by_priority filter];
    [reflexivity |].
  rewrite IH.
  destruct He as [He | He];
    [destruct (has_priority_high e He) as [-> ->]
    | destruct (has_priority_medium e He) as [-> ->]]; cbn [app].
  - apply insert_high; [exact He |].
    apply Forall_app. split;
      (eapply Forall_impl; [| apply filter_has_priority]); cbn; auto.
  - apply insert_medium; [exact He | apply filter_has_priority ..].
Qed.

(** Goes through the branches of a detector that produced the event of
    [He]. *)
Ltac event_cases He :=
  cbv zeta in He;
  repeat match type of He with
         | In _ (if ?b then _ else _) => destruct b
         end;
  cbn in He; intuition (subst; cbn; auto).

Lemma collected_priorities (now december_31 : TaxCalculator.datetime)
    (user_risk_score : Q) (positions : list Position) :
  Forall (fun e => event_priority e = PRIORITY_HIGH
                   \/ event_priority e = PRIORITY_MEDIUM)
    (collect_events now december_31 user_risk_score positions).
Proof.
  unfold collect_events. repeat (apply Forall_app; split).
  - apply Forall_forall. intros e He. unfold _detect_price_movements in He.
    apply in_flat_map in He. destruct He as (pos & _ & He).
    event_cases He.
  - unfold _detect_risk_drift. cbv zeta.
    repeat match goal with
           | |- Forall _ (if ?b then _ else _) => destruct b
           | |- Forall _ (match ?o with Some _ => _ | None => _ end) =>
               destruct o
           end;
      repeat apply Forall_cons; try apply Forall_nil; cbn; auto.
  - apply Forall_forall. intros e He.
    unfold _detect_rebalancing_opportunities in He.
    destruct (Qeq_bool (positions_total_value positions) 0); [destruct He |].
    apply in_flat_map in He. destruct He as (pos & _ & He).
    event_cases He.
  - unfold _detect_concentration_risk. cbv zeta.
    repeat match goal with
           | |- Forall _ (if ?b then _ else _) => destruct b
           end;
      repeat apply Forall_cons; try apply Forall_nil; cbn; auto.
  - apply Forall_forall. intros e He. unfold _detect_tax_opportunities in He.
    apply in_flat_map in He. destruct He as (pos & _ & He).
    destruct (first_entry_date pos); [| destruct He].
    apply in_app_or in He. destruct He as [He | He];
      event_cases He.
  - apply Forall_forall. intros e He.
    unfold _detect_profit_taking_opportunities in He.
    apply in_flat_map in He. destruct He as (pos & _ & He).
    event_cases He.
  - apply Forall_forall. intros e He.
    unfold _detect_stop_loss_triggers in He.
    apply in_flat_map in He. destruct He as (pos & _ & He).
    event_cases He.
Qed.

(** X26.  No detector produces an event of critical or of low priority,
    so the sorted list that [detect_all_events] returns is the events of
    high priority, in the order the detectors produced them, followed by
    those of medium priority, in that order too. *)
Theorem events_high_then_medium (now december_31 : TaxCalculator.datetime)
    (user_risk_score : Q) (positions : list Position) :
  let events := collect_events now december_31 user_risk_score positions in
  detect_all_events now december_31 user_risk_score positions
  = filter (has_priority PRIORITY_HIGH) events
    ++ filter (has_priority PRIORITY_MEDIUM) events
  /\ Forall (fun e => event_priority e = PRIORITY_HIGH
                      \/ event_priority e = PRIORITY_MEDIUM) events
  /\ Permutation events
       (detect_all_events now december_31 user_risk_score positions).
Proof.
  intro events.
  pose proof (collected_priorities now december_31 user_risk_score positions)
    as Hall.
  fold events in Hall.
  assert (E : detect_all_events now december_31 user_risk_score positions
              = filter (has_priority PRIORITY_HIGH) events
                ++ filter (has_priority PRIORITY_MEDIUM) events)
    by (apply sort_high_medium, Hall).
  split; [exact E |]. split; [exact Hall |].
  rewrite E. clear E.
  induction Hall as [| e l He _ IH]; cbn [filter]; [constructor |].
  destruct He as [He | He];
    [destruct (has_priority_high e He) as [-> ->]
    | destruct (has_priority_medium e He) as [-> ->]]; cbn [app].
  - now constructor.
  - now apply Permutation_cons_app.
Qed.

(** Destructs the boolean comparisons of a hypothesis. *)
Ltac by_comparison_in H :=
  repeat match type of H with
         | context [Qltb ?a ?b] => destruct (Qltb_spec a b)
         | context [Qleb ?a ?b] => destruct (Qleb_spec a b)
         end.

(** X27.  The thresholds of the detectors are nested.  A stop-loss alert
    (a price more than 25% below the average cost) always comes with a
    large-loss event for the same position, and a profit-taking event (a
    price more than 50% above the average cost) with a large-gain event;
    both pairs report the same percentage. *)
Theorem strict_alerts_come_with_price_movements (positions : list Position)
    (e : Event) :
  In e (_detect_stop_loss_triggers positions
        ++ _detect_profit_taking_opportunities positions) ->
  exists pos movement change,
    In pos positions
    /\ event_symbol e = Some (symbol pos)
    /\ 0 < average_cost pos
    /\ change = price_change_pct pos
    /\ In movement (_detect_price_movements positions)
    /\ event_symbol movement = Some (symbol pos)
    /\ dict_get (data movement) "price_change_pct" = Some change
    /\ ((type e = stop_loss_alert /\ type movement = large_loss
         /\ dict_get (data e) "loss_pct" = Some change /\ change < -25)
        \/ (type e = profit_taking /\ type movement = large_gain
            /\ dict_get (data e) "gain_pct" = Some change /\ 50 < change)).
Proof.
  intro He. apply in_app_or in He.
  destruct He as [He | He]; apply in_flat_map in He;
    destruct He as (pos & Hpos & He); cbv zeta in He;
    fold (price_change_pct pos) in He;
    by_comparison_in He; try destruct He as [<- | []]; try destruct He.
  - exists pos.
    exists {| type := large_loss;
              event_priority := PRIORITY_MEDIUM;
              event_symbol := Some (symbol pos);
              data := [("price_change_pct"%string, price_change_pct pos);
                       ("current_price"%string, current_price pos);
                       ("avg_cost"%string, average_cost pos)] |}.
    exists (price_change_pct pos).
    repeat split; try assumption; try reflexivity.
    + unfold _detect_price_movements. apply in_flat_map.
      exists pos. split; [assumption |]. cbv zeta.
      fold (price_change_pct pos).
      rewrite Qltb_true by assumption.
      rewrite Qltb_false by lra. rewrite Qltb_true by lra. now left.
    + left. repeat split; try reflexivity. assumption.
  - exists pos.
    exists {| type := large_gain;
              event_priority := PRIORITY_HIGH;
              event_symbol := Some (symbol pos);
              data := [("price_change_pct"%string, price_change_pct pos);
                       ("current_price"%string, current_price pos);
                       ("avg_cost"%string, average_cost pos)] |}.
    exists (price_change_pct pos).
    repeat split; try assumption; try reflexivity.
    + unfold _detect_price_movements. apply in_flat_map.
      exists pos. split; [assumption |]. cbv zeta.
      fold (price_change_pct pos).
      rewrite Qltb_true by assumption.
      rewrite Qltb_true by lra. now left.
    + right. repeat split; try reflexivity. assumption.
Qed.

(** A position bought at 100 and quoted at 70. *)
Lemma strict_alerts_come_with_price_movements_witness :
  exists movement,
    In movement
      (_detect_price_movements
         [{| symbol := "AAPL"; total_quantity := 10; current_price := 70;
             average_cost := 100; first_entry_date := None |}])
    /\ event_symbol movement = Some "AAPL"%string.
Proof.
  destruct (strict_alerts_come_with_price_movements
              [{| symbol := "AAPL"; total_quantity := 10; current_price := 70;
                  average_cost := 100; first_entry_date := None |}]
              {| type := stop_loss_alert;
                 event_priority := PRIORITY_HIGH;
                 event_symbol := Some "AAPL"%string;
                 data := [("loss_pct"%string, (70 - 100) / 100 * 100);
                          ("current_price"%string, 70);
                          ("avg_cost"%string, 100)] |})
    as (pos & movement & change & Hpos & _ & _ & _ & Hin & Hsym & _).
  - left. reflexivity.
  - exists movement. split; [exact Hin |].
    destruct Hpos as [<- | []]. exact Hsym.
Defined.

Lemma py_max_list_in (l : list Q) :
  forall x, In (py_max_list x l) (x :: l).
Proof.
  unfold py_max_list.
  induction l as [| y l IH]; intro x; cbn [fold_left]; [now left |].
  destruct (IH (py_max x y)) as [E | I]; [| right; now right].
  rewrite <- E. unfold py_max. destruct (Qltb x y); cbn; auto.
Qed.

Lemma py_max_list_ge (l : list Q) :
  forall x y, In y (x :: l) -> y <= py_max_list x l.
Proof.
  unfold py_max_list.
  induction l as [| z l IH]; intros x y Hy; cbn [fold_left].
  - destruct Hy as [<- | []]. lra.
  - assert (Hmax : x <= py_max x z /\ z <= py_max x z)
      by (unfold py_max; destruct (Qltb_spec x z); lra).
    pose proof (IH (py_max x z) (py_max x z) (or_introl eq_refl)).
    destruct Hy as [<- | [<- | Hy]]; [lra | lra |].
    apply IH. now right.
Qed.

Lemma py_index_of_found {A : Type} (f : A -> Q) (v : Q) (l : list A) :
  In v (map f l) ->
  forall k, exists i a,
    py_index_of v (map f l) k = Some i
    /\ nth_error l (i - k) = Some a /\ f a == v /\ In a l.
Proof.
  induction l as [| a l IH]; intros Hv k; cbn [map py_index_of] in *;
    [destruct Hv |].
  destruct (Qeq_bool (f a) v) eqn:E.
  - exists k, a. rewrite Nat.sub_diag.
    apply Qeq_bool_iff in E.
    split; [reflexivity |]. split; [reflexivity |].
    split; [exact E | now left].
  - destruct Hv as [Hv | Hv].
    + rewrite Hv in E. rewrite (proj2 (Qeq_bool_iff v v)) in E by reflexivity.
      discriminate E.
    + destruct (IH Hv (S k)) as (i & b & Ei & Hn & Hb & Hin).
      exists i, b. split; [exact Ei |].
      assert (Hik : (S k <= i)%nat).
      { clear - Ei. revert Ei. generalize (S k) as j.
        induction (map f l) as [| x m IHm]; intros j; cbn [py_index_of];
          [discriminate |].
        destruct (Qeq_bool x v); [intro Ei; injection Ei as <-; lia |].
        intro Ei. apply IHm in Ei. lia. }
      replace (i - k)%nat with (S (i - S k)) by lia.
      cbn [nth_error]. split; [exact Hn |]. split; [exact Hb | now right].
Qed.

Lemma max_of_shares {A : Type} (f : A -> Q) (l : list A) (a : A) :
  In a l ->
  let m := match map f l with
           | [] => 0
           | x :: l' => py_max_list x l'
           end in
  In m (map f l) /\ forall b, In b l -> f b <= m.
Proof.
  intros Ha m. subst m. destruct l as [| first rest]; [destruct Ha |].
  cbn [map]. split; [apply py_max_list_in |].
  intros b Hb. apply py_max_list_ge.
  change (f first :: map f rest) with (map f (first :: rest)).
  now apply in_map.
Qed.

(** The event of [_detect_risk_drift] once a position exceeds the share
    that the risk score accepts. *)
Lemma risk_drift_fires (user_risk_score : Q) (positions : list Position)
    (p : Position) :
  ~ positions_total_value positions == 0 ->
  In p positions ->
  (if Qltb user_risk_score 0.3 then 15
   else if Qltb user_risk_score 0.6 then 25 else 35)
  < position_pct positions p ->
  exists largest drift m,
    _detect_risk_drift user_risk_score positions = [drift]
    /\ In largest positions
    /\ type drift = risk_drift
    /\ event_priority drift = PRIORITY_HIGH
    /\ event_symbol drift = Some (symbol largest)
    /\ dict_get (data drift) "position_pct" = Some m
    /\ m == position_pct positions largest
    /\ forall q, In q positions -> position_pct positions q <= m.
Proof.
  intros Hnz Hp Hover. unfold _detect_risk_drift.
  destruct (Qeq_bool (positions_total_value positions) 0) eqn:Z0;
    [apply Qeq_bool_iff in Z0; contradiction |].
  cbv zeta.
  change (map (fun q => position_value q / positions_total_value positions
                        * 100) positions)
    with (map (position_pct positions) positions).
  set (acceptable := if Qltb user_risk_score 0.3 then 15
                     else if Qltb user_risk_score 0.6 then 25 else 35) in *.
  destruct (max_of_shares (position_pct positions) positions p Hp)
    as [Hin Hge].
  set (m := match map (position_pct positions) positions with
            | [] => 0
            | x :: l => py_max_list x l
            end) in *.
  rewrite Qltb_true by (specialize (Hge p Hp); lra).
  destruct (py_index_of_found (position_pct positions) m positions Hin 0%nat)
    as (i & largest & Ei & Hn & Hl & Hlin).
  rewrite Ei. rewrite Nat.sub_0_r in Hn. rewrite Hn.
  exists largest. eexists. exists m.
  split; [reflexivity |]. cbn.
  repeat split; try assumption. now symmetry.
Qed.

(** X28.  For a risk score below 0.6, whenever a rebalancing event is
    produced (a position above 30% of the value of the positions) the
    risk-drift detector fires too: its single event names a position
    with the largest share, and that share is above 30%. *)
Theorem rebalancing_comes_with_risk_drift (user_risk_score : Q)
    (positions : list Position) (e : Event) :
  user_risk_score < 0.6 ->
  In e (_detect_rebalancing_opportunities positions) ->
  exists largest drift m,
    _detect_risk_drift user_risk_score positions = [drift]
    /\ In largest positions
    /\ type drift = risk_drift
    /\ event_symbol drift = Some (symbol largest)
    /\ dict_get (data drift) "position_pct" = Some m
    /\ m == position_pct positions largest
    /\ 30 < m
    /\ forall q, In q positions -> position_pct positions q <= m.
Proof.
  intros Hrisk He. unfold _detect_rebalancing_opportunities in He.
  destruct (Qeq_bool (positions_total_value positions) 0) eqn:Z0;
    [destruct He |].
  apply in_flat_map in He. destruct He as (p & Hp & He). cbv zeta in He.
  fold (position_pct positions p) in He.
  destruct (Qltb_spec 30 (position_pct positions p)) as [H30 | H30];
    [| destruct He].
  destruct (risk_drift_fires user_risk_score positions p)
    as (largest & drift & m & E & Hl & Ht & _ & Hs & Hd & Hm & Hge).
  - intro N. apply Qeq_bool_iff in N. congruence.
  - exact Hp.
  - rewrite (Qltb_true _ _ Hrisk).
    destruct (Qltb user_risk_score 0.3); lra.
  - exists largest, drift, m. repeat split; try assumption.
    specialize (Hge p Hp). lra.
Qed.

(** Two positions worth 80 and 20, for a risk score of 0.5. *)
Lemma rebalancing_comes_with_risk_drift_witness :
  exists drift,
    _detect_risk_drift 0.5
      [{| symbol := "AAPL"; total_quantity := 8; current_price := 10;
          average_cost := 10; first_entry_date := None |};
       {| symbol := "MSFT"; total_quantity := 2; current_price := 10;
          average_cost := 10; first_entry_date := None |}]
    = [drift]
    /\ type drift = risk_drift.
Proof.
  destruct (rebalancing_comes_with_risk_drift 0.5
              [{| symbol := "AAPL"; total_quantity := 8; current_price := 10;
                  average_cost := 10; first_entry_date := None |};
               {| symbol := "MSFT"; total_quantity := 2; current_price := 10;
                  average_cost := 10; first_entry_date := None |}]
              {| type := rebalancing_needed;
                 event_priority := PRIORITY_MEDIUM;
                 event_symbol := Some "AAPL"%string;
                 data := [("position_pct"%string, 8 * 10 / (0 + 8 * 10 + 2 * 10) * 100);
                          ("position_value"%string, 8 * 10)] |})
    as (largest & drift & m & E & _ & Ht & _).
  - reflexivity.
  - left. reflexivity.
  - exists drift. split; assumption.
Defined.

(** X29.  A portfolio of a single position of non-zero value gets the
    concentration-risk event, a risk-drift event and a rebalancing event
    for that position, whatever the risk score: its share is 100%. *)
Theorem single_position_events (now december_31 : TaxCalculator.datetime)
    (user_risk_score : Q) (pos : Position) :
  ~ position_value pos == 0 ->
  exists concentration drift rebalancing,
    let events := detect_all_events now december_31 user_risk_score [pos] in
    In concentration events /\ In drift events /\ In rebalancing events
    /\ type concentration = concentration_risk
    /\ type drift = risk_drift
    /\ event_symbol drift = Some (symbol pos)
    /\ type rebalancing = rebalancing_needed
    /\ event_symbol rebalancing = Some (symbol pos)
    /\ dict_get (data rebalancing) "position_pct"
       = Some (position_pct [pos] pos)
    /\ position_pct [pos] pos == 100.
Proof.
  intro Hnz.
  assert (Htotal : positions_total_value [pos] == position_value pos)
    by (unfold positions_total_value; cbn [map]; rewrite py_sum_cons;
        change (py_sum []) with 0; ring).
  assert (Hpct : position_pct [pos] pos == 100)
    by (unfold position_pct; rewrite Htotal; field; exact Hnz).
  assert (Hnz' : ~ positions_total_value [pos] == 0)
    by (rewrite Htotal; exact Hnz).
  destruct (risk_drift_fires user_risk_score [pos] pos Hnz' (or_introl eq_refl))
    as (largest & drift & m & E & Hl & Ht & _ & Hs & _).
  { rewrite Hpct.
    destruct (Qltb user_risk_score 0.3); [reflexivity |].
    destruct (Qltb user_risk_score 0.6); reflexivity. }
  destruct Hl as [<- | []].
  exists {| type := concentration_risk;
            event_priority := PRIORITY_HIGH;
            event_symbol := None;
            data := [("num_positions"%string, inject_Z (Z.of_nat 1))] |}.
  exists drift.
  exists {| type := rebalancing_needed;
            event_priority := PRIORITY_MEDIUM;
            event_symbol := Some (symbol pos);
            data := [("position_pct"%string, position_pct [pos] pos);
                     ("position_value"%string, position_value pos)] |}.
  cbv zeta.
  assert (Hsorted : forall e,
             In e (collect_events now december_31 user_risk_score [pos]) ->
             In e (detect_all_events now december_31 user_risk_score [pos])).
  { intros e He. unfold detect_all_events.
    rewrite (sort_high_medium _ (collected_priorities _ _ _ _)).
    pose proof (collected_priorities now december_31 user_risk_score [pos])
      as Hall.
    rewrite Forall_forall in Hall. specialize (Hall e He).
    apply in_or_app.
    destruct Hall as [Hh | Hm]; [left | right]; apply filter_In;
      (split; [exact He |]).
    - apply (has_priority_high e Hh).
    - apply (has_priority_medium e Hm). }
  repeat split; try assumption; try reflexivity; try apply Hsorted;
    unfold collect_events.
  - do 3 (apply in_or_app; right). apply in_or_app. left. now left.
  - apply in_or_app; right. apply in_or_app. left. rewrite E. now left.
  - do 2 (apply in_or_app; right). apply in_or_app. left.
    unfold _detect_rebalancing_opportunities.
    destruct (Qeq_bool (positions_total_value [pos]) 0) eqn:Z0;
      [apply Qeq_bool_iff in Z0; contradiction |].
    cbv zeta. cbn [flat_map]. fold (position_pct [pos] pos).
    rewrite Qltb_true by (rewrite Hpct; reflexivity). now left.
Qed.

(** Ten units of AAPL quoted at 70. *)
Lemma single_position_events_witness :
  exists drift,
    In drift
      (detect_all_events 0%Z 0%Z 0.9
         [{| symbol := "AAPL"; total_quantity := 10; current_price := 70;
             average_cost := 100; first_entry_date := None |}])
    /\ type drift = risk_drift.
Proof.
  destruct (single_position_events 0%Z 0%Z 0.9
              {| symbol := "AAPL"; total_quantity := 10; current_price := 70;
                 average_cost := 100; first_entry_date := None |})
    as (_ & drift & _ & _ & Hd & _ & _ & Ht & _).
  - discriminate.
  - exists drift. split; assumption.
Defined.

End Events.

(** ** Currencies *)

Section Currencies.
Import Currency.





End Currencies.
